(** * notion_tools: typed-value normalisation and record flattening

    A shallow embedding of [src/notion_tools.py].  The Notion API delivers
    decoded JSON, so every value the functions receive is a Python object
    built from [None], booleans, numbers, strings, lists and dicts with
    string keys; the functions add tuples and pandas timestamps to these.
    Python exceptions are modelled by an error monad, the API client and
    [sleep] by a state holding the client and the trace of effects. *)

From Stdlib Require Import ZArith String Ascii List Bool Lia.
From stdpp Require Import base option list strings gmap.

Open Scope string_scope.
Open Scope Z_scope.

Set Warnings "-register-all".

(** ** Python values *)

(** A [pd.Timestamp] is an instant (nanoseconds since the epoch) or the
    missing-value marker [pd.NaT]. *)
Inductive timestamp : Type :=
| NaT
| Ts (ns : Z).

(** JSON numbers are kept as integers: no function of the module computes
    with them. A dict is the list of its items in insertion order; its keys
    are strings, as JSON decoding produces them. *)
Inductive PyVal : Type :=
| PyNone
| PyBool (b : bool)
| PyNum (n : Z)
| PyStr (s : string)
| PyList (items : list PyVal)
| PyTuple (items : list PyVal)
| PyDict (entries : list (string * PyVal))
| PyTimestamp (t : timestamp).

(** Nesting depth of a value; it bounds the recursion of the normaliser. *)
Fixpoint height (v : PyVal) : nat :=
  match v with
  | PyList items | PyTuple items => S (list_max (map height items))
  | PyDict entries => S (list_max (map (fun kv => height (snd kv)) entries))
  | _ => 0%nat
  end.

(** ** Exceptions *)

Inductive exn : Type :=
| KeyError
| IndexError
| TypeError
| AttributeError
| RecursionError
| APIResponseError
| ValueError (msg : string).

Inductive result (A : Type) : Type :=
| OK (a : A)
| Err (e : exn).
Arguments OK {A} a.
Arguments Err {A} e.

#[global] Instance result_ret : MRet result := fun _ a => OK a.
#[global] Instance result_bind : MBind result := fun _ _ f r =>
  match r with
  | OK a => f a
  | Err e => Err e
  end.
#[global] Instance result_fmap : FMap result := fun _ _ f r =>
  match r with
  | OK a => OK (f a)
  | Err e => Err e
  end.

(** ** Python primitives used by the module *)

Module Py.

(** [x is None] *)
Definition is_None (v : PyVal) : bool :=
  match v with
  | PyNone => true
  | _ => false
  end.

(** [v == s] for a string literal [s]: only a string compares equal. *)
Definition eq_str (v : PyVal) (s : string) : bool :=
  match v with
  | PyStr s' => String.eqb s' s
  | _ => false
  end.

(** [hash(v)] succeeds: lists and dicts are unhashable, a tuple is
    hashable when its items are. *)
Fixpoint hashable (v : PyVal) : bool :=
  match v with
  | PyList _ | PyDict _ => false
  | PyTuple items => forallb hashable items
  | _ => true
  end.

(** Lookup of a string key among the items of a dict. *)
Fixpoint lookup (k : string) (entries : list (string * PyVal)) : option PyVal :=
  match entries with
  | [] => None
  | (k', v) :: rest => if String.eqb k' k then Some v else lookup k rest
  end.

(** [items[i]] on a sequence, with Python's negative indices. *)
Definition index {A} (items : list A) (i : Z) : result A :=
  let n := Z.of_nat (List.length items) in
  let j := if i <? 0 then i + n else i in
  if (j <? 0) || (n <=? j) then Err IndexError
  else match nth_error items (Z.to_nat j) with
       | Some x => OK x
       | None => Err IndexError
       end.

Definition chars (s : string) : list PyVal :=
  map (fun c => PyStr (String c EmptyString)) (list_ascii_of_string s).

(** [container[key]] *)
Definition getitem (container key : PyVal) : result PyVal :=
  match container with
  | PyDict entries =>
      match key with
      | PyStr k =>
          match lookup k entries with
          | Some v => OK v
          | None => Err KeyError
          end
      | _ => if hashable key then Err KeyError else Err TypeError
      end
  | PyList items | PyTuple items =>
      match key with
      | PyNum i => index items i
      | PyBool b => index items (Z.b2z b)
      | _ => Err TypeError
      end
  | PyStr s =>
      match key with
      | PyNum i => index (chars s) i
      | PyBool b => index (chars s) (Z.b2z b)
      | _ => Err TypeError
      end
  | _ => Err TypeError
  end.

(** [d.get(k)]: only a dict has the method. *)
Definition get (d : PyVal) (k : string) : result PyVal :=
  match d with
  | PyDict entries => OK (default PyNone (lookup k entries))
  | _ => Err AttributeError
  end.

(** [for x in v]: the items the iteration yields. *)
Definition iter (v : PyVal) : result (list PyVal) :=
  match v with
  | PyList items | PyTuple items => OK items
  | PyStr s => OK (chars s)
  | PyDict entries => OK (map (fun kv => PyStr (fst kv)) entries)
  | _ => Err TypeError
  end.

(** [bool(v)] *)
Definition truthy (v : PyVal) : bool :=
  match v with
  | PyNone => false
  | PyBool b => b
  | PyNum n => negb (n =? 0)
  | PyStr s => negb (String.eqb s "")
  | PyList items | PyTuple items => negb (Nat.eqb (List.length items) 0)
  | PyDict entries => negb (Nat.eqb (List.length entries) 0)
  | PyTimestamp _ => true
  end.

(** ["name" in s] for strings: substring test. *)
Fixpoint substring_of (p s : string) : bool :=
  String.prefix p s ||
  match s with
  | EmptyString => false
  | String _ s' => substring_of p s'
  end.

(** [k in v] for a string literal [k]. *)
Definition contains (v : PyVal) (k : string) : result bool :=
  match v with
  | PyDict entries => OK (bool_decide (is_Some (lookup k entries)))
  | PyList items | PyTuple items => OK (existsb (fun x => eq_str x k) items)
  | PyStr s => OK (substring_of k s)
  | _ => Err TypeError
  end.

(** [str.isspace] on the ASCII range. *)
Definition is_space (c : ascii) : bool :=
  let n := nat_of_ascii c in
  ((9 <=? n) && (n <=? 13) || (28 <=? n) && (n <=? 32))%nat.

Fixpoint lstrip (s : string) : string :=
  match s with
  | String c s' => if is_space c then lstrip s' else s
  | EmptyString => EmptyString
  end.

Definition rev_string (s : string) : string :=
  string_of_list_ascii (rev (list_ascii_of_string s)).

(** [s.strip()]: only a string has the method. *)
Definition strip (v : PyVal) : result string :=
  match v with
  | PyStr s => OK (rev_string (lstrip (rev_string (lstrip s))))
  | _ => Err AttributeError
  end.

(** [d.items()]: only a dict has the method. *)
Definition items (d : PyVal) : result (list (string * PyVal)) :=
  match d with
  | PyDict entries => OK entries
  | _ => Err AttributeError
  end.

(** [sep.join(parts)] *)
Fixpoint join (sep : string) (parts : list string) : string :=
  match parts with
  | [] => ""
  | [p] => p
  | p :: rest => p ++ sep ++ join sep rest
  end.

(** [a += b]: a list is extended by the items of any iterable; tuples
    and strings concatenate with their own kind, numbers add. *)
Definition iadd (a b : PyVal) : result PyVal :=
  match a with
  | PyList items => ys ← iter b; OK (PyList (items ++ ys))
  | PyTuple items =>
      match b with
      | PyTuple ys => OK (PyTuple (items ++ ys))
      | _ => Err TypeError
      end
  | PyStr s =>
      match b with
      | PyStr t => OK (PyStr (s ++ t))
      | _ => Err TypeError
      end
  | PyNum n =>
      match b with
      | PyNum m => OK (PyNum (n + m))
      | PyBool c => OK (PyNum (n + Z.b2z c))
      | _ => Err TypeError
      end
  | PyBool c =>
      match b with
      | PyNum m => OK (PyNum (Z.b2z c + m))
      | PyBool d => OK (PyNum (Z.b2z c + Z.b2z d))
      | _ => Err TypeError
      end
  | _ => Err TypeError
  end.

End Py.

(** The tags the dispatch knows, in the order of the chain. *)
Definition supported_tags : list string :=
  ["url"; "email"; "phone_number"; "number"; "created_time";
   "last_edited_time"; "relation"; "checkbox"; "date"; "created_by";
   "last_edited_by"; "select"; "multi_select"; "people"; "files"; "title";
   "rich_text"; "formula"; "rollup"].

(** The tags whose payload is returned as it is. *)
Definition passthrough_tags : list string :=
  ["url"; "email"; "phone_number"; "number"; "created_time";
   "last_edited_time"].

(** ** The property-value normaliser *)

Section Normaliser.

(** The date parser behind [pd.Timestamp(str)] belongs to pandas; it is a
    parameter of the development. [None] stands for a string that pandas
    rejects. *)
Variable parse_datetime : string -> option timestamp.

(** [pd.Timestamp(x)]: [None] gives [NaT], a string is parsed, an integer
    counts nanoseconds since the epoch. *)
Definition pd_Timestamp (x : PyVal) : result PyVal :=
  match x with
  | PyNone => OK (PyTimestamp NaT)
  | PyStr s =>
      match parse_datetime s with
      | Some t => OK (PyTimestamp t)
      | None => Err (ValueError "could not convert string to Timestamp")
      end
  | PyNum n => OK (PyTimestamp (Ts n))
  | PyTimestamp t => OK (PyTimestamp t)
  | _ => Err TypeError
  end.

(** [value] is a date property whose payload has the start [s] and the
    end [e], the shape the API gives to a date. *)
Definition is_date_property (value s e : PyVal) : Prop :=
  Py.getitem value (PyStr "type") = OK (PyStr "date") /\
  exists obj, Py.getitem value (PyStr "date") = OK obj /\
              Py.getitem obj (PyStr "start") = OK s /\
              Py.getitem obj (PyStr "end") = OK e.

(** [[x["name"] for x in items if "name" in x]] *)
Fixpoint names_if_present (items : list PyVal) : result (list PyVal) :=
  match items with
  | [] => OK []
  | x :: rest =>
      has ← Py.contains x "name";
      if (has : bool) then
        n ← Py.getitem x (PyStr "name");
        ns ← names_if_present rest;
        OK (n :: ns)
      else names_if_present rest
  end.

(** [" ".join([x["plain_text"].strip() for x in obj])] *)
Definition plain_text (obj : PyVal) : result PyVal :=
  xs ← Py.iter obj;
  parts ← mapM (fun x => t ← Py.getitem x (PyStr "plain_text"); Py.strip t) xs;
  OK (PyStr (Py.join " " parts)).

(** The tag of the [else] branch is a string whenever the branch is reached
    (see [type_tag_is_string]); [format_tag] is the [{type_}] of the
    f-string there. *)
Definition format_tag (type_ : PyVal) : string :=
  match type_ with
  | PyStr s => s
  | _ => ""
  end.

(** The body of [_simplify_notion_property_value], lines 51-99, with the
    recursive call as the parameter [self]. *)
Definition simplify_body (self : PyVal -> result PyVal) (value : PyVal)
  : result PyVal :=
  type_ ← Py.getitem value (PyStr "type");
  obj ← Py.getitem value type_;
  if Py.is_None obj then OK obj
  else if Py.eq_str type_ "url" then OK obj
  else if Py.eq_str type_ "email" then OK obj
  else if Py.eq_str type_ "phone_number" then OK obj
  else if Py.eq_str type_ "number" then OK obj
  else if Py.eq_str type_ "created_time" then OK obj
  else if Py.eq_str type_ "last_edited_time" then OK obj
  else if Py.eq_str type_ "relation" then
    xs ← Py.iter obj;
    ids ← mapM (fun v => Py.getitem v (PyStr "id")) xs;
    OK (PyList ids)
  else if Py.eq_str type_ "checkbox" then OK (PyBool (Py.truthy obj))
  else if Py.eq_str type_ "date" then
    s ← Py.getitem obj (PyStr "start");
    t1 ← pd_Timestamp s;
    e ← Py.getitem obj (PyStr "end");
    t2 ← pd_Timestamp e;
    OK (PyTuple [t1; t2])
  else if Py.eq_str type_ "created_by" then Py.getitem obj (PyStr "name")
  else if Py.eq_str type_ "last_edited_by" then Py.get obj "name"
  else if Py.eq_str type_ "select" then Py.getitem obj (PyStr "name")
  else if Py.eq_str type_ "multi_select" then
    xs ← Py.iter obj;
    ns ← mapM (fun x => Py.getitem x (PyStr "name")) xs;
    OK (PyList ns)
  else if Py.eq_str type_ "people" then
    xs ← Py.iter obj;
    ns ← names_if_present xs;
    OK (PyList ns)
  else if Py.eq_str type_ "files" then
    xs ← Py.iter obj;
    urls ← mapM (fun x =>
                   t ← Py.getitem x (PyStr "type");
                   f ← Py.getitem x t;
                   Py.getitem f (PyStr "url")) xs;
    OK (PyList urls)
  else if Py.eq_str type_ "title" then plain_text obj
  else if Py.eq_str type_ "rich_text" then plain_text obj
  else if Py.eq_str type_ "formula" then
    t ← Py.getitem obj (PyStr "type");
    Py.getitem obj t
  else if Py.eq_str type_ "rollup" then
    t ← Py.getitem obj (PyStr "type");
    if Py.eq_str t "array" then
      arr ← Py.getitem obj (PyStr "array");
      xs ← Py.iter arr;
      ys ← mapM self xs;
      OK (PyList ys)
    else Py.getitem obj t
  else Err (ValueError ("I don't understand type " ++ format_tag type_)).

(** The recursion, cut at a given depth. *)
Fixpoint simplify_fuel (fuel : nat) (value : PyVal) : result PyVal :=
  match fuel with
  | O => Err RecursionError
  | S n => simplify_body (simplify_fuel n) value
  end.

(** [_simplify_notion_property_value]: every recursive call is on an item
    of a list two dicts below [value], so the height of [value] is depth
    enough (see [simplify_unfold]). *)
Definition _simplify_notion_property_value (value : PyVal) : result PyVal :=
  simplify_fuel (S (height value)) value.


(** ** Flat records *)

(** A column key is a property name or, under the "multiindex" policy, the
    tuple [(property, "start")] or [(property, "end")]. *)
Inductive ColumnKey : Type :=
| Name (name : string)
| Sub (name label : string).

#[global] Instance ColumnKey_eq_dec : EqDecision ColumnKey.
Proof. solve_decision. Defined.

(** [isinstance(col, tuple)] *)
Definition is_tuple (col : ColumnKey) : bool :=
  match col with
  | Name _ => false
  | Sub _ _ => true
  end.

(** A record is a Python dict: its items in insertion order. *)
Definition record : Type := list (ColumnKey * PyVal).

(** [record[k] = v]: an existing key keeps its place and takes the new
    value, a new key goes to the end. *)
Fixpoint setitem (r : record) (k : ColumnKey) (v : PyVal) : record :=
  match r with
  | [] => [(k, v)]
  | (k', v') :: rest =>
      if decide (k' = k) then (k', v) :: rest else (k', v') :: setitem rest k v
  end.

Fixpoint getkey (r : record) (k : ColumnKey) : option PyVal :=
  match r with
  | [] => None
  | (k', v) :: rest => if decide (k' = k) then Some v else getkey rest k
  end.

Definition keys (r : record) : list ColumnKey := map fst r.

(** A loop [for x in xs: acc = step acc x] that an exception leaves. *)
Fixpoint for_each {A B} (step : A -> B -> result A) (xs : list B) (acc : A)
  : result A :=
  match xs with
  | [] => OK acc
  | x :: rest => acc' ← step acc x; for_each step rest acc'
  end.

(** The body of the loop of [_page_to_simple_dict], lines 122-134. *)
Definition flatten_property (default_date_handler : string)
    (date_handlers : gmap string string) (r : record)
    (item : string * PyVal) : result record :=
  let '(property, value) := item in
  extracted ← _simplify_notion_property_value value;
  type_ ← Py.getitem value (PyStr "type");
  if Py.eq_str type_ "date" then
    let handler := default default_date_handler (date_handlers !! property) in
    if String.eqb handler "ignore_end" then
      e0 ← Py.getitem extracted (PyNum 0);
      OK (setitem r (Name property) e0)
    else if String.eqb handler "mangle" then
      e0 ← Py.getitem extracted (PyNum 0);
      let r := setitem r (Name (property ++ "_start")) e0 in
      e1 ← Py.getitem extracted (PyNum 1);
      OK (setitem r (Name (property ++ "_end")) e1)
    else if String.eqb handler "multiindex" then
      e0 ← Py.getitem extracted (PyNum 0);
      let r := setitem r (Sub property "start") e0 in
      e1 ← Py.getitem extracted (PyNum 1);
      OK (setitem r (Sub property "end") e1)
    else OK r
  else OK (setitem r (Name property) extracted).

(** [_page_to_simple_dict], lines 102-135. [date_handlers=None] is the
    empty mapping. *)
Definition _page_to_simple_dict (page : PyVal) (default_date_handler : string)
    (date_handlers : option (gmap string string)) : result record :=
  let date_handlers := default ∅ date_handlers in
  id ← Py.getitem page (PyStr "id");
  created ← Py.getitem page (PyStr "created_time");
  created ← pd_Timestamp created;
  edited ← Py.getitem page (PyStr "last_edited_time");
  edited ← pd_Timestamp edited;
  url ← Py.getitem page (PyStr "url");
  let r := [(Name "_notion_id", id); (Name "_created_time", created);
            (Name "_last_edited_time", edited); (Name "_notion_url", url)] in
  properties ← Py.getitem page (PyStr "properties");
  props ← Py.items properties;
  for_each (flatten_property default_date_handler date_handlers) props r.

End Normaliser.

(** *** Vocabulary of the statements about policies *)

(** The three policies the loop body knows. *)
Definition recognised_handlers : list string :=
  ["ignore_end"; "mangle"; "multiindex"].

(** The policy of the property [name] is [h]: its entry in [date_handlers]
    when it has one, the default otherwise. *)
Definition policy_is (default_date_handler : string)
    (date_handlers : option (gmap string string)) (name h : string) : Prop :=
  match date_handlers with
  | Some m => m !! name = Some h \/
              (m !! name = None /\ default_date_handler = h)
  | None => default_date_handler = h
  end.

(** The keys a property named [p] can be stored under, whatever its type
    and policy. *)
Definition possible_keys (p : string) : list ColumnKey :=
  [Name p; Name (p ++ "_start"); Name (p ++ "_end");
   Sub p "start"; Sub p "end"].

(** No property of [props] can be stored under [k]. *)
Definition untouched_by (props : list (string * PyVal)) (k : ColumnKey)
  : Prop :=
  forall p v, In (p, v) props -> k ∉ possible_keys p.

(** [page'] is [page] with [props] for its properties. *)
Definition with_properties (page page' : PyVal)
    (props : list (string * PyVal)) : Prop :=
  (forall k, k <> "properties" ->
             Py.getitem page' (PyStr k) = Py.getitem page (PyStr k)) /\
  Py.getitem page' (PyStr "properties") = OK (PyDict props).

(** [_user_to_simple_dict], lines 214-227. *)
Definition _user_to_simple_dict (user : PyVal) : result record :=
  id ← Py.getitem user (PyStr "id");
  type_ ← Py.getitem user (PyStr "type");
  name ← Py.getitem user (PyStr "name");
  avatar ← Py.getitem user (PyStr "avatar_url");
  let r := [(Name "notion_id", id); (Name "type", type_); (Name "name", name);
            (Name "avatar_url", avatar)] in
  type_ ← Py.getitem user (PyStr "type");
  if Py.eq_str type_ "person" then
    person ← Py.getitem user (PyStr "person");
    email ← Py.getitem person (PyStr "email");
    OK (setitem r (Name "email") email)
  else OK r.

(** ** The table *)

(** A [pd.DataFrame] as far as the module uses it: the column labels and,
    for every record, one cell per column, [None] being the missing-value
    marker. *)
Record DataFrame : Type := {
  columns : list ColumnKey;
  data : list (list (option PyVal))
}.

(** The labels of [ks] that [cols] lacks are added at its end. *)
Definition add_columns (cols : list ColumnKey) (ks : list ColumnKey)
  : list ColumnKey :=
  fold_left (fun acc k => if bool_decide (k ∈ acc) then acc else (acc ++ [k])%list)
            ks cols.

(** [pd.DataFrame(records)] on a sequence of dicts, as pandas builds it: the
    columns are the keys of all records in the order of their first
    appearance, one row per record. *)
Definition pd_DataFrame (records : list record) : DataFrame :=
  let cols := fold_left (fun acc r => add_columns acc (keys r)) records [] in
  {| columns := cols;
     data := map (fun r => map (getkey r) cols) records |}.

(** [col if isinstance(col, tuple) else (col, "")] *)
Definition promote (col : ColumnKey) : ColumnKey :=
  if is_tuple col then col
  else match col with
       | Name c => Sub c ""
       | Sub _ _ => col
       end.

(** Lines 205-209 of [database_to_dataframe]: when a column label is a
    tuple, the labels become the [pd.MultiIndex] made of the tuples and of
    [(col, "")] for the other labels. *)
Definition hierarchical_columns (df : DataFrame) : DataFrame :=
  if existsb is_tuple (columns df) then
    let multiindex := map promote (columns df) in
    {| columns := multiindex; data := data df |}
  else df.

(** ** The API client and its effects *)

(** The two endpoints of [notion_client] the module calls. A call answers
    with the decoded JSON response or raises, and moves the client (and the
    service behind it) to a new state. [start_cursor] is [None] when the
    argument is not passed. *)
Class NotionClient (C : Type) : Type := {
  databases_query : C -> string -> option PyVal -> result PyVal * C;
  users_list : C -> option PyVal -> result PyVal * C
}.

(** What a run does to the outside, in order. *)
Inductive event : Type :=
| DatabasesQuery (database_id : string) (start_cursor : option PyVal)
| UsersList (start_cursor : option PyVal)
| Sleep.

Record World (C : Type) : Type := {
  client : C;
  trace : list event
}.
Arguments client {C} w.
Arguments trace {C} w.

(** A computation with effects: it may not terminate within its fuel
    ([None]), raise, or return; in the last two cases the world it leaves
    is known. *)
Definition Eff (C A : Type) : Type := World C -> option (result A * World C).

#[global] Instance eff_ret {C} : MRet (Eff C) := fun _ a w => Some (OK a, w).
#[global] Instance eff_bind {C} : MBind (Eff C) := fun _ _ f m w =>
  match m w with
  | None => None
  | Some (OK a, w') => f a w'
  | Some (Err e, w') => Some (Err e, w')
  end.

(** A pure step inside an effectful computation. *)
Definition lift {C A} (r : result A) : Eff C A := fun w => Some (r, w).

Definition diverge {C A} : Eff C A := fun _ => None.

(** The events that are calls of the API. *)
Definition is_fetch (e : event) : bool :=
  match e with
  | Sleep => false
  | _ => true
  end.

(** The numbers of calls and of sleeps in a trace. *)
Definition fetches (tr : list event) : nat :=
  List.length (List.filter is_fetch tr).
Definition sleeps (tr : list event) : nat :=
  List.length (List.filter (fun e => negb (is_fetch e)) tr).

(** *** Vocabulary of the statements about paging *)

(** From the state [c], asked first with [cursor] and then with the cursor
    of each response, the endpoint [call] serves the pages [pages], all
    but the last with [has_more] true; it is left in the state [c']. *)
Inductive serves {C : Type} (call : C -> option PyVal -> result PyVal * C)
  : C -> option PyVal -> list (list PyVal) -> C -> Prop :=
| serves_last c cursor response c' page :
    call c cursor = (OK response, c') ->
    Py.getitem response (PyStr "results") = OK (PyList page) ->
    Py.getitem response (PyStr "has_more") = OK (PyBool false) ->
    serves call c cursor [page] c'
| serves_more c cursor response c' page next pages c'' :
    call c cursor = (OK response, c') ->
    Py.getitem response (PyStr "results") = OK (PyList page) ->
    Py.getitem response (PyStr "has_more") = OK (PyBool true) ->
    Py.getitem response (PyStr "next_cursor") = OK next ->
    serves call c' (Some next) pages c'' ->
    serves call c cursor (page :: pages) c''.

(** The policies [(dh, dhs)] agree with [(dh', dhs')] wherever they give a
    recognised policy; elsewhere they give an unrecognised string. *)
Definition weakens (dh : string) (dhs : option (gmap string string))
    (dh' : string) (dhs' : option (gmap string string)) : Prop :=
  forall name h, policy_is dh dhs name h -> h ∈ recognised_handlers ->
                 policy_is dh' dhs' name h.

Section EntryPoints.

Context {C : Type} `{NotionClient C}.
Variable parse_datetime : string -> option timestamp.

(** [sleep(0.1)] *)
Definition sleep : Eff C unit := fun w =>
  Some (OK (), {| client := client w; trace := trace w ++ [Sleep] |}).

(** A call of an endpoint: the client answers and moves on, the call is
    recorded. *)
Definition api_call (call : C -> option PyVal -> result PyVal * C)
    (ev : option PyVal -> event) (start_cursor : option PyVal)
  : Eff C PyVal := fun w =>
  let '(r, c) := call (client w) start_cursor in
  Some (r, {| client := c; trace := trace w ++ [ev start_cursor] |}).

(** [notion_client.databases.query(database_id, start_cursor=...)] *)
Definition query (database_id : string) : option PyVal -> Eff C PyVal :=
  api_call (fun c => databases_query c database_id)
           (DatabasesQuery database_id).

(** [notion_client.users.list(start_cursor=...)] *)
Definition list_users : option PyVal -> Eff C PyVal :=
  api_call users_list UsersList.

(** The [while response["has_more"]] loop, written twice in the source
    (lines 184-189 and 251-254) with [fetch] the one call that differs.
    [fuel] bounds the number of iterations. Each response is decoded anew
    from the wire, so the list that [results] names and extends in place is
    shared with no later response: values can stand for the objects. *)
Fixpoint fetch_rest (fetch : option PyVal -> Eff C PyVal) (fuel : nat)
    (response results : PyVal) : Eff C PyVal :=
  more ← lift (Py.getitem response (PyStr "has_more"));
  if Py.truthy more then
    match fuel with
    | O => diverge
    | S fuel' =>
        _ ← sleep;
        cursor ← lift (Py.getitem response (PyStr "next_cursor"));
        response' ← fetch (Some cursor);
        page ← lift (Py.getitem response' (PyStr "results"));
        results' ← lift (Py.iadd results page);
        fetch_rest fetch fuel' response' results'
    end
  else mret results.

(** Lines 182-189 and 249-254: the first call and the loop. *)
Definition fetch_all (fetch : option PyVal -> Eff C PyVal) (fuel : nat)
  : Eff C PyVal :=
  response ← fetch None;
  results ← lift (Py.getitem response (PyStr "results"));
  fetch_rest fetch fuel response results.

(** Lines 192-211: the records of the pages, the table, its header. *)
Definition pages_to_dataframe (default_date_handler : string)
    (date_handlers : option (gmap string string)) (results : PyVal)
  : result DataFrame :=
  pages ← Py.iter results;
  records ← mapM (fun page => _page_to_simple_dict parse_datetime page
                                default_date_handler date_handlers) pages;
  OK (hierarchical_columns (pd_DataFrame records)).

(** [database_to_dataframe], lines 138-211. *)
Definition database_to_dataframe (fuel : nat) (database_id : string)
    (default_date_handler : string)
    (date_handlers : option (gmap string string)) : Eff C DataFrame :=
  results ← fetch_all (query database_id) fuel;
  lift (pages_to_dataframe default_date_handler date_handlers results).

(** Line 255: the records of the users and their table. *)
Definition users_table (results : PyVal) : result DataFrame :=
  users ← Py.iter results;
  records ← mapM _user_to_simple_dict users;
  OK (pd_DataFrame records).

(** [users_to_dataframe], lines 230-255. *)
Definition users_to_dataframe (fuel : nat) : Eff C DataFrame :=
  results ← fetch_all list_users fuel;
  lift (users_table results).

End EntryPoints.


(** ** Sample data

    Values of the shapes the API sends, used to run the functions. *)

Module Sample.

(** A parser that knows two days. *)
Definition parse (s : string) : option timestamp :=
  if String.eqb s "2021-03-01" then Some (Ts 1614556800000000000)
  else if String.eqb s "2021-03-05" then Some (Ts 1614902400000000000)
  else None.

Definition T1 : PyVal := PyTimestamp (Ts 1614556800000000000).
Definition T2 : PyVal := PyTimestamp (Ts 1614902400000000000).

(** A property value: its id, its tag and the payload under the tag. *)
Definition property (tag : string) (payload : PyVal) : PyVal :=
  PyDict [("id", PyStr "%3AuJ%7B"); ("type", PyStr tag); (tag, payload)].

Definition date_payload (start end_ : PyVal) : PyVal :=
  PyDict [("start", start); ("end", end_); ("time_zone", PyNone)].

(** A single day and a range. *)
Definition day : PyVal :=
  property "date" (date_payload (PyStr "2021-03-01") PyNone).
Definition range : PyVal :=
  property "date" (date_payload (PyStr "2021-03-01") (PyStr "2021-03-05")).

(** A formula whose computed value is a date. *)
Definition formula_date_result : PyVal :=
  PyDict [("type", PyStr "date");
          ("date", date_payload (PyStr "2021-03-01") PyNone)].
Definition formula_date : PyVal := property "formula" formula_date_result.


(** A rollup over three date properties. *)
Definition rollup_dates : PyVal :=
  property "rollup"
    (PyDict [("type", PyStr "array");
             ("array", PyList [day; range; day]);
             ("function", PyStr "show_original")]).

(** A page of a task database. *)
Definition page (id : string) (props : list (string * PyVal)) : PyVal :=
  PyDict [("object", PyStr "page"); ("id", PyStr id);
          ("created_time", PyStr "2021-03-01");
          ("last_edited_time", PyStr "2021-03-05");
          ("url", PyStr ("https://www.notion.so/" ++ id));
          ("properties", PyDict props)].

Definition title : PyVal :=
  property "title"
    (PyList [PyDict [("type", PyStr "text"); ("plain_text", PyStr "Launch ")]]).

Definition done : PyVal := property "checkbox" (PyBool true).

Definition task : PyVal :=
  page "p1" [("Name", title); ("Due", range); ("Done", done)].

(** The same page without its date. *)
Definition task_undated : PyVal :=
  page "p1" [("Name", title); ("Done", done)].

(** A page whose property "Due_start" comes after the date "Due". *)
Definition clash : PyVal :=
  page "p2" [("Due", range); ("Due_start", property "number" (PyNum 5))].

(** Two flat records: one with a date under "multiindex", one with plain
    keys only. *)
Definition flat_dated : record :=
  [(Name "_notion_id", PyStr "p1"); (Sub "Due" "start", T1);
   (Sub "Due" "end", T2)].
Definition flat_plain : record :=
  [(Name "_notion_id", PyStr "p2"); (Name "Done", PyBool true)].

(** A client that answers every call with the next of the responses it
    holds, and raises when it has none left. *)
#[global] Instance scripted : NotionClient (list (result PyVal)) := {
  databases_query c _ _ :=
    match c with
    | [] => (Err APIResponseError, [])
    | r :: rest => (r, rest)
    end;
  users_list c _ :=
    match c with
    | [] => (Err APIResponseError, [])
    | r :: rest => (r, rest)
    end
}.

Definition response (results : list PyVal) (has_more : bool)
    (next_cursor : PyVal) : PyVal :=
  PyDict [("object", PyStr "list"); ("results", PyList results);
          ("next_cursor", next_cursor); ("has_more", PyBool has_more)].

Definition task2 : PyVal := page "p2" [("Name", title); ("Done", done)].
Definition task3 : PyVal := page "p3" [("Name", title)].

(** Three pages of a database, of sizes 2, 1 and 1. *)
Definition three_pages : list (result PyVal) :=
  [OK (response [task; task2] true (PyStr "c1"));
   OK (response [task3] true (PyStr "c2"));
   OK (response [task_undated] false PyNone)].

Definition person : PyVal :=
  PyDict [("object", PyStr "user"); ("id", PyStr "u1");
          ("type", PyStr "person"); ("name", PyStr "Ada");
          ("avatar_url", PyNone);
          ("person", PyDict [("email", PyStr "ada@example.org")])].
Definition bot : PyVal :=
  PyDict [("object", PyStr "user"); ("id", PyStr "u2");
          ("type", PyStr "bot"); ("name", PyStr "Sync");
          ("avatar_url", PyNone); ("bot", PyDict [])].

(** Two pages of users, of sizes 1 and 1. *)
Definition two_user_pages : list (result PyVal) :=
  [OK (response [person] true (PyStr "c1"));
   OK (response [bot] false PyNone)].

Definition world {C} (c : C) : World C := {| client := c; trace := [] |}.

End Sample.

(** ** Vocabulary of the further statements *)

(** [value] carries the tag [tag] and, under it, the payload [obj]. *)
Definition tagged (value : PyVal) (tag : string) (obj : PyVal) : Prop :=
  Py.getitem value (PyStr "type") = OK (PyStr tag) /\
  Py.getitem value (PyStr tag) = OK obj.


(** The keys every record of a page starts with. *)
Definition reserved_keys : list ColumnKey :=
  [Name "_notion_id"; Name "_created_time"; Name "_last_edited_time";
   Name "_notion_url"].

(** The keys every record of a user starts with. *)
Definition user_keys : list ColumnKey :=
  [Name "notion_id"; Name "type"; Name "name"; Name "avatar_url"].

(** [user["type"] == "person"], for a user that has a type. *)
Definition is_person (user : PyVal) : bool :=
  match Py.getitem user (PyStr "type") with
  | OK t => Py.eq_str t "person"
  | Err _ => false
  end.

(** The labels the flattener can make: names, and tuples that end in
    "start" or "end". *)
Definition flat_key (k : ColumnKey) : Prop :=
  match k with
  | Name _ => True
  | Sub _ label => label = "start" \/ label = "end"
  end.

(** What an assignment keeps of a record: its keys in their places, their
    being distinct, their being labels of the flattener. *)
Definition grows (r r' : record) : Prop :=
  (exists extra, keys r' = (keys r ++ extra)%list) /\
  (NoDup (keys r) -> NoDup (keys r')) /\
  (Forall flat_key (keys r) -> Forall flat_key (keys r')).

(** Asked first with [cursor] and then with the cursor of each response,
    the endpoint [call] serves [n] responses that announce more and then
    raises [e]; it is left in the state [c']. *)
Inductive fails_after {C : Type}
    (call : C -> option PyVal -> result PyVal * C)
  : C -> option PyVal -> nat -> exn -> C -> Prop :=
| fails_now c cursor e c' :
    call c cursor = (Err e, c') ->
    fails_after call c cursor 0 e c'
| fails_later c cursor response c' page next n e c'' :
    call c cursor = (OK response, c') ->
    Py.getitem response (PyStr "results") = OK (PyList page) ->
    Py.getitem response (PyStr "has_more") = OK (PyBool true) ->
    Py.getitem response (PyStr "next_cursor") = OK next ->
    fails_after call c' (Some next) n e c'' ->
    fails_after call c cursor (S n) e c''.

(** Every response of the endpoint [call], from a state that satisfies
    [inv], is a page that announces more and leaves a state that satisfies
    [inv]. *)
Definition always_more {C : Type}
    (call : C -> option PyVal -> result PyVal * C) (inv : C -> Prop) : Prop :=
  forall c cursor, inv c ->
    exists response c' page next,
      call c cursor = (OK response, c') /\
      Py.getitem response (PyStr "results") = OK (PyList page) /\
      Py.getitem response (PyStr "has_more") = OK (PyBool true) /\
      Py.getitem response (PyStr "next_cursor") = OK next /\
      inv c'.

(** ** Further sample data *)

Module More.

(** A service that never runs out of pages: every response holds the task
    and announces more. *)
#[global] Instance endless : NotionClient unit := {
  databases_query c _ _ :=
    (OK (Sample.response [Sample.task] true (PyStr "next")), c);
  users_list c _ :=
    (OK (Sample.response [Sample.person] true (PyStr "next")), c)
}.

(** A date property that is empty. *)
Definition empty_date : PyVal := Sample.property "date" PyNone.

(** A property of a type the dispatch does not know. *)
Definition status : PyVal :=
  Sample.property "status" (PyDict [("name", PyStr "Done")]).

Definition people : PyVal :=
  Sample.property "people"
    (PyList [PyDict [("object", PyStr "user"); ("id", PyStr "u1");
                     ("name", PyStr "Ada")];
             PyDict [("object", PyStr "user"); ("id", PyStr "u9")];
             PyDict [("object", PyStr "user"); ("id", PyStr "u2");
                     ("name", PyStr "Sync")]]).

(** The task with an empty date, and its beginning. *)
Definition undated_task : PyVal :=
  Sample.page "p4" [("Name", Sample.title); ("Due", empty_date);
                    ("Done", Sample.done)].
Definition named_task : PyVal :=
  Sample.page "p4" [("Name", Sample.title)].

(** The task with a property of an unknown type. *)
Definition status_task : PyVal :=
  Sample.page "p4" [("Name", Sample.title); ("Status", status)].

(** The task with a formula that computes a date. *)
Definition formula_task : PyVal :=
  Sample.page "p4" [("Name", Sample.title); ("When", Sample.formula_date)].

(** A service that answers once and is then out of reach. *)
Definition broken : list (result PyVal) :=
  [OK (Sample.response [Sample.task] true (PyStr "c1"))].

(** An empty database. *)
Definition no_pages : list (result PyVal) :=
  [OK (Sample.response [] false PyNone)].

(** Two pages of a database; the second holds a page that cannot be
    flattened. *)
Definition bad_pages : list (result PyVal) :=
  [OK (Sample.response [Sample.task] true (PyStr "c1"));
   OK (Sample.response [status_task; Sample.task2] false PyNone)].

End More.
(** * Properties *)

(** ** The recursion of the normaliser is well founded *)

Lemma list_max_in {A} (f : A -> nat) (l : list A) (x : A) :
  In x l -> (f x <= list_max (map f l))%nat.
Proof.
  induction l as [|y l IH]; simpl; [tauto|].
  intros [->|Hin]; [lia|]. specialize (IH Hin). lia.
Qed.

Lemma lookup_In k entries v :
  Py.lookup k entries = Some v -> In (k, v) entries.
Proof.
  induction entries as [|[k' v'] rest IH]; simpl; [discriminate|].
  destruct (String.eqb_spec k' k) as [->|_].
  - intros [= ->]. auto.
  - auto.
Qed.

Lemma lookup_height k entries v :
  Py.lookup k entries = Some v -> (height v < height (PyDict entries))%nat.
Proof.
  intros Hl%lookup_In. simpl.
  apply (list_max_in (fun kv => height (snd kv))) in Hl. simpl in Hl. lia.
Qed.

(** Only a dict can be subscripted by a string. *)
Lemma getitem_str_dict c k v :
  Py.getitem c (PyStr k) = OK v ->
  exists entries, c = PyDict entries /\ Py.lookup k entries = Some v.
Proof.
  destruct c as [| | | | | |entries|]; simpl; try discriminate.
  destruct (Py.lookup k entries) eqn:E; [|discriminate].
  intros [= ->]. eauto.
Qed.

(** A dict only has string keys. *)
Lemma getitem_dict_key entries key v :
  Py.getitem (PyDict entries) key = OK v ->
  exists k, key = PyStr k /\ Py.lookup k entries = Some v.
Proof.
  destruct key as [| | |k| | | |]; simpl; try discriminate;
    try (destruct (forallb _ _); discriminate).
  destruct (Py.lookup k entries) eqn:E; [|discriminate].
  intros [= ->]. eauto.
Qed.

Lemma chars_height s x : In x (Py.chars s) -> height x = 0%nat.
Proof.
  unfold Py.chars. intros Hin%in_map_iff.
  destruct Hin as (c & <- & _). reflexivity.
Qed.

Lemma iter_height v xs x :
  Py.iter v = OK xs -> In x xs -> (height x <= height v)%nat.
Proof.
  destruct v as [| | |s|l|l|entries|]; simpl; try discriminate;
    intros [= <-] Hin.
  - apply chars_height in Hin. lia.
  - apply (list_max_in height) in Hin. lia.
  - apply (list_max_in height) in Hin. lia.
  - apply in_map_iff in Hin. destruct Hin as (kv & <- & _). simpl. lia.
Qed.

Lemma mapM_ext_in {A B} (f g : A -> result B) (l : list A) :
  (forall x, In x l -> f x = g x) -> mapM f l = mapM g l.
Proof.
  induction l as [|x l IH]; simpl; intros Hext; [reflexivity|].
  rewrite (Hext x) by auto. rewrite IH by auto. reflexivity.
Qed.

Lemma mapM_length {A B} (f : A -> result B) (l : list A) (ys : list B) :
  mapM f l = OK ys -> List.length ys = List.length l.
Proof.
  revert ys. induction l as [|x l IH]; simpl; intros ys.
  - intros [= <-]. reflexivity.
  - destruct (f x) as [y|]; cbn [mbind result_bind]; [|discriminate].
    destruct (mapM f l) as [ys'|]; cbn [mbind result_bind]; [|discriminate].
    intros [= <-]. simpl. f_equal. apply IH. reflexivity.
Qed.

(** Decides the comparisons of a known tag with the tags of the chain. *)
Ltac decide_tags :=
  repeat match goal with
         | |- context [Py.eq_str (PyStr ?a) ?b] =>
             let r := eval vm_compute in (Py.eq_str (PyStr a) b) in
             change (Py.eq_str (PyStr a) b) with r
         end;
  cbv match.

Section NormaliserFacts.

Variable parse_datetime : string -> option timestamp.

Abbreviation simplify := (_simplify_notion_property_value parse_datetime).
Abbreviation body := (simplify_body parse_datetime).

(** The body only calls itself on values that lie strictly deeper. *)
Lemma simplify_body_ext (f g : PyVal -> result PyVal) (value : PyVal) :
  (forall x, (height x < height value)%nat -> f x = g x) ->
  body f value = body g value.
Proof.
  intros Hext. unfold simplify_body.
  destruct (Py.getitem value (PyStr "type")) as [type_|] eqn:Ht;
    cbn [mbind result_bind]; [|reflexivity].
  destruct (Py.getitem value type_) as [obj|] eqn:Ho;
    cbn [mbind result_bind]; [|reflexivity].
  destruct (getitem_str_dict _ _ _ Ht) as (entries & -> & _).
  destruct (getitem_dict_key _ _ _ Ho) as (k & -> & Hobj%lookup_height).
  destruct (Py.is_None obj); [reflexivity|].
  repeat match goal with
         | |- (if ?b then _ else _) = _ => destruct b; [reflexivity|]
         end.
  destruct (Py.eq_str (PyStr k) "rollup"); [|reflexivity].
  destruct (Py.getitem obj (PyStr "type")) as [t|] eqn:Hk;
    cbn [mbind result_bind]; [|reflexivity].
  destruct (Py.eq_str t "array"); [|reflexivity].
  destruct (Py.getitem obj (PyStr "array")) as [arr|] eqn:Ha;
    cbn [mbind result_bind]; [|reflexivity].
  destruct (Py.iter arr) as [xs|] eqn:Hi;
    cbn [mbind result_bind]; [|reflexivity].
  destruct (getitem_str_dict _ _ _ Ha) as (oentries & -> & Harr%lookup_height).
  rewrite (mapM_ext_in f g xs); [reflexivity|].
  intros x Hin. apply Hext.
  pose proof (iter_height _ _ _ Hi Hin). lia.
Qed.

Lemma simplify_fuel_indep (n m : nat) (v : PyVal) :
  (height v < n)%nat -> (height v < m)%nat ->
  simplify_fuel parse_datetime n v = simplify_fuel parse_datetime m v.
Proof.
  revert m v. induction n as [|n IH]; intros m v Hn Hm; [lia|].
  destruct m as [|m]; [lia|]. simpl.
  apply simplify_body_ext. intros x Hx. apply IH; lia.
Qed.

(** The defining equation of the source function: the depth bound never
    cuts the recursion. *)
Lemma simplify_unfold (value : PyVal) :
  simplify value = body simplify value.
Proof.
  unfold _simplify_notion_property_value at 1. simpl.
  apply simplify_body_ext. intros x Hx.
  unfold _simplify_notion_property_value.
  apply simplify_fuel_indep; lia.
Qed.

(** Entering the dispatch, once the tag and the payload have been read. *)
Ltac read_property Ht Ho :=
  rewrite simplify_unfold; unfold simplify_body;
  rewrite Ht; cbn [mbind result_bind];
  rewrite Ho; cbn [mbind result_bind].

(** ** Null payloads (C7) *)

(** C7. Whatever the type tag, supported or not, a property value whose
    payload is [None] normalises to [None]: no exception is raised, and the
    test comes before the tag is looked at. *)
Theorem null_payload_normalises_to_null (value : PyVal) (tag : string) :
  Py.getitem value (PyStr "type") = OK (PyStr tag) ->
  Py.getitem value (PyStr tag) = OK PyNone ->
  simplify value = OK PyNone.
Proof.
  intros Ht Ho. read_property Ht Ho. reflexivity.
Qed.

(** ** Unknown tags (C8) *)

Lemma eq_str_unsupported (tag s : string) :
  tag ∉ supported_tags -> In s supported_tags ->
  Py.eq_str (PyStr tag) s = false.
Proof.
  intros Hnot Hin. simpl. apply String.eqb_neq. intros ->.
  apply Hnot. apply list_elem_of_In. exact Hin.
Qed.

(** C8. A value whose tag is none of the supported ones and whose payload
    is not [None] makes the normaliser raise [ValueError]; the message ends
    with the offending tag. *)
Theorem unknown_tag_raises (value : PyVal) (tag : string) (obj : PyVal) :
  Py.getitem value (PyStr "type") = OK (PyStr tag) ->
  Py.getitem value (PyStr tag) = OK obj ->
  obj <> PyNone ->
  tag ∉ supported_tags ->
  simplify value = Err (ValueError ("I don't understand type " ++ tag)).
Proof.
  intros Ht Ho Hobj Htag. read_property Ht Ho.
  destruct obj; try congruence; cbn [Py.is_None];
    rewrite !(eq_str_unsupported tag) by (assumption || (simpl; tauto));
    reflexivity.
Qed.


Lemma type_tag_is_string (value type_ obj : PyVal) :
  Py.getitem value (PyStr "type") = OK type_ ->
  Py.getitem value type_ = OK obj ->
  exists tag, type_ = PyStr tag.
Proof.
  intros Ht Ho.
  destruct (getitem_str_dict _ _ _ Ht) as (entries & -> & _).
  destruct (getitem_dict_key _ _ _ Ho) as (k & -> & _). eauto.
Qed.

(** ** Dates (C10) *)

(** The date branch, lines 73-74. *)
Lemma date_pair (value s e t1 t2 : PyVal) :
  is_date_property value s e ->
  pd_Timestamp parse_datetime s = OK t1 ->
  pd_Timestamp parse_datetime e = OK t2 ->
  simplify value = OK (PyTuple [t1; t2]).
Proof.
  intros (Ht & obj & Ho & Hs & He) Hts Hte. read_property Ht Ho.
  destruct (getitem_str_dict _ _ _ Hs) as (entries & -> & _).
  cbn [Py.is_None]. decide_tags.
  rewrite Hs. cbn [mbind result_bind]. rewrite Hts. cbn [mbind result_bind].
  rewrite He. cbn [mbind result_bind]. rewrite Hte. reflexivity.
Qed.


(** A payload that lacks the "end" key altogether is not a date of the API;
    reading it raises [KeyError]. *)
Lemma date_without_end_key (value obj s t1 : PyVal) :
  Py.getitem value (PyStr "type") = OK (PyStr "date") ->
  Py.getitem value (PyStr "date") = OK obj ->
  Py.getitem obj (PyStr "start") = OK s ->
  pd_Timestamp parse_datetime s = OK t1 ->
  Py.getitem obj (PyStr "end") = Err KeyError ->
  simplify value = Err KeyError.
Proof.
  intros Ht Ho Hs Hts He. read_property Ht Ho.
  destruct (getitem_str_dict _ _ _ Hs) as (entries & -> & _).
  cbn [Py.is_None]. decide_tags.
  rewrite Hs. cbn [mbind result_bind]. rewrite Hts. cbn [mbind result_bind].
  rewrite He. reflexivity.
Qed.

(** ** Rollups (C9) *)

(** C9. A rollup of kind "array" normalises to the list of its normalised
    elements, each one dispatched on its own tag (an element that raises
    makes the whole call raise). In particular three date elements give
    the list of their three (start, end) pairs. *)
Theorem rollup_array_normalises_elements (value obj arr : PyVal)
    (xs : list PyVal) :
  Py.getitem value (PyStr "type") = OK (PyStr "rollup") ->
  Py.getitem value (PyStr "rollup") = OK obj ->
  Py.getitem obj (PyStr "type") = OK (PyStr "array") ->
  Py.getitem obj (PyStr "array") = OK arr ->
  Py.iter arr = OK xs ->
  simplify value = (ys ← mapM simplify xs; OK (PyList ys)) /\
  (forall d1 d2 d3 s1 e1 s2 e2 s3 e3 a1 b1 a2 b2 a3 b3,
     xs = [d1; d2; d3] ->
     is_date_property d1 s1 e1 -> is_date_property d2 s2 e2 ->
     is_date_property d3 s3 e3 ->
     pd_Timestamp parse_datetime s1 = OK a1 ->
     pd_Timestamp parse_datetime e1 = OK b1 ->
     pd_Timestamp parse_datetime s2 = OK a2 ->
     pd_Timestamp parse_datetime e2 = OK b2 ->
     pd_Timestamp parse_datetime s3 = OK a3 ->
     pd_Timestamp parse_datetime e3 = OK b3 ->
     simplify value =
     OK (PyList [PyTuple [a1; b1]; PyTuple [a2; b2]; PyTuple [a3; b3]])).
Proof.
  intros Ht Ho Hk Ha Hi.
  assert (Heq : simplify value = (ys ← mapM simplify xs; OK (PyList ys))).
  { read_property Ht Ho.
    destruct (getitem_str_dict _ _ _ Hk) as (entries & -> & _).
    cbn [Py.is_None]. decide_tags.
    rewrite Hk. cbn [mbind result_bind]. decide_tags.
    rewrite Ha. cbn [mbind result_bind]. rewrite Hi. reflexivity. }
  split; [exact Heq|].
  intros d1 d2 d3 s1 e1 s2 e2 s3 e3 a1 b1 a2 b2 a3 b3 -> D1 D2 D3
         Ha1 Hb1 Ha2 Hb2 Ha3 Hb3.
  rewrite Heq. cbn [mapM].
  rewrite (date_pair d1 s1 e1 a1 b1 D1 Ha1 Hb1).
  rewrite (date_pair d2 s2 e2 a2 b2 D2 Ha2 Hb2).
  rewrite (date_pair d3 s3 e3 a3 b3 D3 Ha3 Hb3).
  reflexivity.
Qed.


(** ** Formulas (C1) *)

(** A tag of the passthrough group returns the payload as it is. *)
Lemma passthrough_payload (value : PyVal) (tag : string) (obj : PyVal) :
  Py.getitem value (PyStr "type") = OK (PyStr tag) ->
  Py.getitem value (PyStr tag) = OK obj ->
  obj = PyNone \/ tag ∈ passthrough_tags ->
  simplify value = OK obj.
Proof.
  intros Ht Ho Hcase. read_property Ht Ho.
  destruct (Py.is_None obj) eqn:Hn; [reflexivity|].
  destruct Hcase as [->|Hin]; [discriminate|].
  apply list_elem_of_In in Hin. simpl in Hin.
  repeat (destruct Hin as [<-|Hin]; [decide_tags; reflexivity|]).
  contradiction.
Qed.


End NormaliserFacts.

Lemma null_payload_witness :
  _simplify_notion_property_value Sample.parse
    (Sample.property "select" PyNone) = OK PyNone.
Proof.
  apply (null_payload_normalises_to_null Sample.parse _ "select");
    reflexivity.
Defined.

Lemma unknown_tag_witness :
  _simplify_notion_property_value Sample.parse
    (Sample.property "status" (PyDict [("name", PyStr "Done")])) =
  Err (ValueError "I don't understand type status").
Proof.
  apply (unknown_tag_raises Sample.parse _ "status"
           (PyDict [("name", PyStr "Done")])).
  - reflexivity.
  - reflexivity.
  - discriminate.
  - unfold supported_tags. intros Hin. apply list_elem_of_In in Hin.
    simpl in Hin. intuition discriminate.
Defined.


(** The three dates of [Sample.rollup_dates] come out as three pairs. *)
Lemma rollup_array_witness :
  _simplify_notion_property_value Sample.parse Sample.rollup_dates =
  OK (PyList [PyTuple [Sample.T1; PyTimestamp NaT];
              PyTuple [Sample.T1; Sample.T2];
              PyTuple [Sample.T1; PyTimestamp NaT]]).
Proof.
  refine (proj2 (rollup_array_normalises_elements Sample.parse
            Sample.rollup_dates _ _ _ eq_refl eq_refl eq_refl eq_refl eq_refl)
            Sample.day Sample.range Sample.day
            (PyStr "2021-03-01") PyNone
            (PyStr "2021-03-01") (PyStr "2021-03-05")
            (PyStr "2021-03-01") PyNone
            _ _ _ _ _ _ eq_refl _ _ _ eq_refl eq_refl eq_refl eq_refl
            eq_refl eq_refl);
    (split; [reflexivity|eexists; repeat split; reflexivity]).
Defined.



(** ** Records as dicts *)

Lemma getkey_setitem_eq (r : record) (k : ColumnKey) (v : PyVal) :
  getkey (setitem r k v) k = Some v.
Proof.
  induction r as [|[k' v'] r IH]; simpl.
  - rewrite decide_True by reflexivity. reflexivity.
  - destruct (decide (k' = k)) as [->|Hne]; simpl.
    + rewrite decide_True by reflexivity. reflexivity.
    + rewrite decide_False by assumption. exact IH.
Qed.

Lemma getkey_setitem_ne (r : record) (k k' : ColumnKey) (v : PyVal) :
  k <> k' -> getkey (setitem r k v) k' = getkey r k'.
Proof.
  intros Hne. induction r as [|[k0 v0] r IH]; simpl.
  - rewrite decide_False by assumption. reflexivity.
  - destruct (decide (k0 = k)) as [->|Hk]; simpl.
    + rewrite !decide_False by assumption. reflexivity.
    + destruct (decide (k0 = k')); [reflexivity|exact IH].
Qed.

Lemma for_each_app {A B} (step : A -> B -> result A) (xs ys : list B)
    (acc : A) :
  for_each step (xs ++ ys) acc =
  (acc' ← for_each step xs acc; for_each step ys acc').
Proof.
  revert acc. induction xs as [|x xs IH]; intros acc; simpl; [reflexivity|].
  destruct (step acc x); cbn [mbind result_bind]; [apply IH|reflexivity].
Qed.

Lemma start_end_differ (d : string) : d ++ "_start" <> d ++ "_end".
Proof.
  induction d as [|c d IH]; simpl; [discriminate|].
  intros [= Heq]. exact (IH Heq).
Qed.

(** Splits an equation [m ≫= f = OK r] on the outcome of [m]. *)
Ltac bind_inv H :=
  match type of H with
  | (?m ≫= _) = OK _ =>
      let E := fresh "E" in
      destruct m eqn:E; cbn [mbind result_bind] in H; [|discriminate H]
  end.

Section FlattenerFacts.

Variable parse_datetime : string -> option timestamp.

Abbreviation simplify := (_simplify_notion_property_value parse_datetime).
Abbreviation flatten := (flatten_property parse_datetime).
Abbreviation page_to_dict := (_page_to_simple_dict parse_datetime).

(** The handler the loop body computes is the policy of the property. *)
Lemma handler_of_policy (dh : string) (dhs : option (gmap string string))
    (name h : string) :
  policy_is dh dhs name h ->
  default dh (default ∅ dhs !! name) = h.
Proof.
  unfold policy_is. destruct dhs as [m|]; simpl.
  - intros [->|[-> ->]]; reflexivity.
  - intros ->. rewrite lookup_empty. reflexivity.
Qed.

(** A property only writes keys made of its own name. *)
Lemma flatten_other_keys (dh : string) (dhs : gmap string string)
    (r r' : record) (p : string) (v : PyVal) (k : ColumnKey) :
  flatten dh dhs r (p, v) = OK r' ->
  k ∉ possible_keys p ->
  getkey r' k = getkey r k.
Proof.
  intros Hstep Hk.
  assert (Hne : forall k', k' ∈ possible_keys p -> k' <> k).
  { intros k' Hin ->. exact (Hk Hin). }
  assert (H0 := Hne (Name p) ltac:(set_solver)).
  assert (H1 := Hne (Name (p ++ "_start")) ltac:(set_solver)).
  assert (H2 := Hne (Name (p ++ "_end")) ltac:(set_solver)).
  assert (H3 := Hne (Sub p "start") ltac:(set_solver)).
  assert (H4 := Hne (Sub p "end") ltac:(set_solver)).
  unfold flatten_property in Hstep.
  bind_inv Hstep. bind_inv Hstep.
  repeat match type of Hstep with
         | (if ?b then _ else _) = OK _ => destruct b
         | (_ ≫= _) = OK _ => bind_inv Hstep
         end;
    injection Hstep as <-;
    rewrite ?getkey_setitem_ne by assumption; reflexivity.
Qed.

Lemma for_each_other_keys (dh : string) (dhs : gmap string string)
    (props : list (string * PyVal)) (r r' : record) (k : ColumnKey) :
  for_each (flatten dh dhs) props r = OK r' ->
  untouched_by props k ->
  getkey r' k = getkey r k.
Proof.
  revert r. induction props as [|[p v] props IH]; simpl; intros r Hrun Hk.
  - injection Hrun as <-. reflexivity.
  - bind_inv Hrun. rewrite (IH _ Hrun).
    + apply (flatten_other_keys dh dhs r _ p v); [assumption|].
      apply (Hk p v). left. reflexivity.
    + intros p' v' Hin. apply (Hk p' v'). right. exact Hin.
Qed.

(** The record of a page is the loop run on its properties from the four
    reserved keys. *)
Lemma page_record_inv (page : PyVal) (dh : string)
    (dhs : option (gmap string string)) (props : list (string * PyVal))
    (rec : record) :
  Py.getitem page (PyStr "properties") = OK (PyDict props) ->
  page_to_dict page dh dhs = OK rec ->
  exists seed, for_each (flatten dh (default ∅ dhs)) props seed = OK rec.
Proof.
  intros Hp Hrec. unfold _page_to_simple_dict in Hrec.
  repeat bind_inv Hrec.
  injection Hp as ->.
  match goal with E : Py.items _ = OK _ |- _ => injection E as <- end.
  eauto.
Qed.


(** The loop body on a date property, lines 123-132, once the value is
    normalised and its policy known. *)
Lemma flatten_date (dh : string) (dhs : option (gmap string string))
    (r : record) (d h : string) (value extracted : PyVal) :
  Py.getitem value (PyStr "type") = OK (PyStr "date") ->
  simplify value = OK extracted ->
  policy_is dh dhs d h ->
  flatten dh (default ∅ dhs) r (d, value) =
  if String.eqb h "ignore_end" then
    e0 ← Py.getitem extracted (PyNum 0);
    OK (setitem r (Name d) e0)
  else if String.eqb h "mangle" then
    e0 ← Py.getitem extracted (PyNum 0);
    e1 ← Py.getitem extracted (PyNum 1);
    OK (setitem (setitem r (Name (d ++ "_start")) e0) (Name (d ++ "_end")) e1)
  else if String.eqb h "multiindex" then
    e0 ← Py.getitem extracted (PyNum 0);
    e1 ← Py.getitem extracted (PyNum 1);
    OK (setitem (setitem r (Sub d "start") e0) (Sub d "end") e1)
  else OK r.
Proof.
  intros Ht Hs Hpol. unfold flatten_property.
  rewrite Hs. cbn [mbind result_bind]. rewrite Ht. cbn [mbind result_bind].
  decide_tags. rewrite (handler_of_policy dh dhs d h Hpol). reflexivity.
Qed.

Lemma unrecognised_eqb (h : string) :
  h ∉ recognised_handlers ->
  String.eqb h "ignore_end" = false /\ String.eqb h "mangle" = false /\
  String.eqb h "multiindex" = false.
Proof.
  intros Hh. repeat split; apply String.eqb_neq; intros ->; apply Hh;
    unfold recognised_handlers; set_solver.
Qed.

(** ** Unrecognised policies (C3) *)


(** ** The three policies (C4) *)

(** C4. For a date property [d] that normalises to the pair [(T1, T2)],
    with the policy read from [date_handlers] when it names [d] and from
    the default otherwise: under "ignore_end" the loop body stores [T1]
    under [d] and nothing else; under "mangle" it stores [T1] under
    [d_start] and [T2] under [d_end]; under "multiindex" it stores them
    under the tuples [(d, "start")] and [(d, "end")]. The record of the page
    maps these keys to these values, as long as no property that comes after
    [d] is stored under the same key (the last assignment wins). *)
Theorem date_policy_columns (page : PyVal)
    (before after : list (string * PyVal)) (d : string)
    (value T1 T2 : PyVal) (dh : string)
    (dhs : option (gmap string string)) :
  Py.getitem page (PyStr "properties") =
    OK (PyDict (before ++ (d, value) :: after)) ->
  Py.getitem value (PyStr "type") = OK (PyStr "date") ->
  simplify value = OK (PyTuple [T1; T2]) ->
  (policy_is dh dhs d "ignore_end" ->
     (forall r, flatten dh (default ∅ dhs) r (d, value) =
                OK (setitem r (Name d) T1)) /\
     (forall rec, page_to_dict page dh dhs = OK rec ->
                  untouched_by after (Name d) ->
                  getkey rec (Name d) = Some T1)) /\
  (policy_is dh dhs d "mangle" ->
     (forall r, flatten dh (default ∅ dhs) r (d, value) =
                OK (setitem (setitem r (Name (d ++ "_start")) T1)
                            (Name (d ++ "_end")) T2)) /\
     (forall rec, page_to_dict page dh dhs = OK rec ->
        (untouched_by after (Name (d ++ "_start")) ->
         getkey rec (Name (d ++ "_start")) = Some T1) /\
        (untouched_by after (Name (d ++ "_end")) ->
         getkey rec (Name (d ++ "_end")) = Some T2))) /\
  (policy_is dh dhs d "multiindex" ->
     (forall r, flatten dh (default ∅ dhs) r (d, value) =
                OK (setitem (setitem r (Sub d "start") T1)
                            (Sub d "end") T2)) /\
     (forall rec, page_to_dict page dh dhs = OK rec ->
        (untouched_by after (Sub d "start") ->
         getkey rec (Sub d "start") = Some T1) /\
        (untouched_by after (Sub d "end") ->
         getkey rec (Sub d "end") = Some T2))).
Proof.
  intros Hp Ht Hs.
  assert (Hfinal : forall h r1 rec k,
            policy_is dh dhs d h ->
            (forall r, flatten dh (default ∅ dhs) r (d, value) = OK (r1 r)) ->
            page_to_dict page dh dhs = OK rec ->
            untouched_by after k ->
            exists r0, getkey rec k = getkey (r1 r0) k).
  { intros h r1 rec k Hpol Hstep Hrec Hk.
    destruct (page_record_inv page dh dhs _ rec Hp Hrec)
      as [seed Hrun].
    rewrite for_each_app in Hrun. bind_inv Hrun.
    cbn [for_each] in Hrun. rewrite Hstep in Hrun.
    cbn [mbind result_bind] in Hrun.
    exists a. exact (for_each_other_keys dh _ after _ rec k
                       Hrun Hk). }
  split; [|split]; intros Hpol.
  - assert (Hstep : forall r, flatten dh (default ∅ dhs) r (d, value) =
                              OK (setitem r (Name d) T1)).
    { intros r.
      rewrite (flatten_date dh dhs r d _ value _ Ht Hs Hpol). reflexivity. }
    split; [exact Hstep|].
    intros rec Hrec Hk.
    destruct (Hfinal _ _ rec (Name d) Hpol Hstep Hrec Hk) as [r0 ->].
    apply getkey_setitem_eq.
  - assert (Hstep : forall r, flatten dh (default ∅ dhs) r (d, value) =
                OK (setitem (setitem r (Name (d ++ "_start")) T1)
                            (Name (d ++ "_end")) T2)).
    { intros r.
      rewrite (flatten_date dh dhs r d _ value _ Ht Hs Hpol). reflexivity. }
    split; [exact Hstep|].
    intros rec Hrec. split; intros Hk.
    + destruct (Hfinal _ _ rec _ Hpol Hstep Hrec Hk) as [r0 ->].
      rewrite getkey_setitem_ne.
      * apply getkey_setitem_eq.
      * intros [= Heq]. symmetry in Heq. exact (start_end_differ d Heq).
    + destruct (Hfinal _ _ rec _ Hpol Hstep Hrec Hk) as [r0 ->].
      apply getkey_setitem_eq.
  - assert (Hstep : forall r, flatten dh (default ∅ dhs) r (d, value) =
                OK (setitem (setitem r (Sub d "start") T1)
                            (Sub d "end") T2)).
    { intros r.
      rewrite (flatten_date dh dhs r d _ value _ Ht Hs Hpol). reflexivity. }
    split; [exact Hstep|].
    intros rec Hrec. split; intros Hk.
    + destruct (Hfinal _ _ rec _ Hpol Hstep Hrec Hk) as [r0 ->].
      rewrite getkey_setitem_ne by discriminate.
      apply getkey_setitem_eq.
    + destruct (Hfinal _ _ rec _ Hpol Hstep Hrec Hk) as [r0 ->].
      apply getkey_setitem_eq.
Qed.

End FlattenerFacts.

Lemma sample_range_is_date :
  Py.getitem Sample.range (PyStr "type") = OK (PyStr "date") /\
  _simplify_notion_property_value Sample.parse Sample.range =
    OK (PyTuple [Sample.T1; Sample.T2]).
Proof. split; reflexivity. Defined.

Ltac not_a_key :=
  let Hin := fresh in
  intros Hin; apply list_elem_of_In in Hin; simpl in Hin;
  intuition discriminate.


(** The sample task under the default "ignore_end" with "mangle" for its
    date "Due": the entry of [date_handlers] decides. *)
Lemma date_policy_witness :
  exists rec,
    _page_to_simple_dict Sample.parse Sample.task "ignore_end"
      (Some {["Due" := "mangle"]}) = OK rec /\
    getkey rec (Name "Due_start") = Some Sample.T1 /\
    getkey rec (Name "Due_end") = Some Sample.T2.
Proof.
  eexists. split; [vm_compute; reflexivity|].
  destruct (date_policy_columns Sample.parse Sample.task
              [("Name", Sample.title)] [("Done", Sample.done)]
              "Due" Sample.range Sample.T1 Sample.T2 "ignore_end"
              (Some {["Due" := "mangle"]})
              eq_refl (proj1 sample_range_is_date)
              (proj2 sample_range_is_date)) as (_ & Hmangle & _).
  destruct (Hmangle (or_introl eq_refl)) as [_ Hrec].
  destruct (Hrec _ eq_refl) as [Hstart Hend].
  split; [apply Hstart|apply Hend];
    intros p v [[= <- <-]|[]]; unfold possible_keys; not_a_key.
Defined.

(** The last assignment wins: a later property named "Due_start" takes the
    key the "mangle" policy gave to the start of "Due". *)
Example later_property_overwrites :
  exists rec,
    _page_to_simple_dict Sample.parse Sample.clash "mangle" None = OK rec /\
    getkey rec (Name "Due_start") = Some (PyNum 5).
Proof. eexists. split; vm_compute; reflexivity. Qed.

(** ** The header of the table (C5) *)

Lemma add_columns_spec (cols ks : list ColumnKey) (k : ColumnKey) :
  k ∈ add_columns cols ks <-> k ∈ cols \/ k ∈ ks.
Proof.
  unfold add_columns. revert cols.
  induction ks as [|k0 ks IH]; intros cols; simpl.
  - rewrite elem_of_nil. tauto.
  - rewrite IH, elem_of_cons.
    destruct (bool_decide_reflect (k0 ∈ cols)) as [Hin|Hnin].
    + intuition (subst; auto).
    + rewrite elem_of_app, elem_of_cons, elem_of_nil. tauto.
Qed.

Lemma fold_add_columns_spec (records : list record) (cols : list ColumnKey)
    (k : ColumnKey) :
  k ∈ fold_left (fun acc r => add_columns acc (keys r)) records cols <->
  k ∈ cols \/ exists r, r ∈ records /\ k ∈ keys r.
Proof.
  revert cols. induction records as [|r records IH]; intros cols; simpl.
  - split; [auto|]. intros [H|(r & Hr & _)]; [exact H|].
    apply elem_of_nil in Hr. contradiction.
  - rewrite IH, add_columns_spec. split.
    + intros [[H|H]|(r' & Hr' & Hk)]; [auto| |].
      * right. exists r. split; [apply elem_of_cons; auto|exact H].
      * right. exists r'. split; [apply elem_of_cons; auto|exact Hk].
    + intros [H|(r' & Hr' & Hk)]; [auto|].
      apply elem_of_cons in Hr' as [->|Hr']; [auto|].
      right. eauto.
Qed.

(** The columns of the table are the keys of its records. *)
Lemma columns_spec (records : list record) (k : ColumnKey) :
  k ∈ columns (pd_DataFrame records) <->
  exists r, r ∈ records /\ k ∈ keys r.
Proof.
  unfold pd_DataFrame. simpl. rewrite fold_add_columns_spec.
  split; [|auto]. intros [H|H]; [|exact H].
  apply elem_of_nil in H. contradiction.
Qed.

Lemma promote_is_tuple (col : ColumnKey) : is_tuple (promote col) = true.
Proof. destruct col; reflexivity. Qed.

(** C5. The header is settled once for the whole batch, on the table built
    from all records: when some record has a tuple key, every column label
    of the result is a tuple, the plain names [c] having become [(c, "")];
    when no record has one, the labels stay the plain names they were. The
    cells are those of [pd.DataFrame(records)] in both cases. *)
Theorem header_promotion (records : list record) :
  let df := pd_DataFrame records in
  let out := hierarchical_columns df in
  data out = data df /\
  ((exists r k, r ∈ records /\ k ∈ keys r /\ is_tuple k = true) ->
     columns out = map promote (columns df) /\
     (forall c, c ∈ columns out -> is_tuple c = true) /\
     (forall c, Name c ∈ columns df -> Sub c "" ∈ columns out)) /\
  ((forall r k, r ∈ records -> k ∈ keys r -> is_tuple k = false) ->
     columns out = columns df /\
     (forall c, c ∈ columns out -> is_tuple c = false)).
Proof.
  intros df out. subst out. unfold hierarchical_columns.
  destruct (existsb is_tuple (columns df)) eqn:Hex.
  - split; [reflexivity|]. split.
    + intros _. simpl. split; [reflexivity|]. split.
      * intros c (c0 & -> & _)%list_elem_of_fmap. apply promote_is_tuple.
      * intros c Hc. apply list_elem_of_fmap. exists (Name c). auto.
    + intros Hplain. exfalso.
      apply existsb_exists in Hex as (k & Hk%list_elem_of_In & Htup).
      apply columns_spec in Hk as (r & Hr & Hk).
      rewrite (Hplain r k Hr Hk) in Htup. discriminate.
  - split; [reflexivity|]. split.
    + intros (r & k & Hr & Hk & Htup). exfalso.
      assert (Hcol : k ∈ columns df) by (apply columns_spec; eauto).
      assert (existsb is_tuple (columns df) = true) as Hex'.
      { apply existsb_exists. exists k. split; [|exact Htup].
        apply list_elem_of_In. exact Hcol. }
      congruence.
    + intros Hplain. split; [reflexivity|].
      intros c (r & Hr & Hk)%columns_spec. eauto.
Qed.

(** One dated record suffices to promote the labels of the whole batch. *)
Lemma header_promotion_witness :
  columns (hierarchical_columns
             (pd_DataFrame [Sample.flat_plain; Sample.flat_dated])) =
  [Sub "_notion_id" ""; Sub "Done" ""; Sub "Due" "start"; Sub "Due" "end"].
Proof.
  refine (eq_trans (proj1 (proj1 (proj2 (header_promotion
            [Sample.flat_plain; Sample.flat_dated])) _)) eq_refl).
  exists Sample.flat_dated, (Sub "Due" "start").
  split; [|split; [|reflexivity]].
  - apply list_elem_of_In. simpl. tauto.
  - apply list_elem_of_In. simpl. tauto.
Defined.

(** ** Paging (C6) *)

Lemma fetches_app (a b : list event) :
  fetches (a ++ b) = (fetches a + fetches b)%nat.
Proof. unfold fetches. rewrite List.filter_app, List.length_app. reflexivity. Qed.

Lemma sleeps_app (a b : list event) :
  sleeps (a ++ b) = (sleeps a + sleeps b)%nat.
Proof. unfold sleeps. rewrite List.filter_app, List.length_app. reflexivity. Qed.

Section PagingFacts.

Context {C : Type} `{NotionClient C}.
Variable parse_datetime : string -> option timestamp.
Variable call : C -> option PyVal -> result PyVal * C.
Variable ev : option PyVal -> event.
Hypothesis ev_is_fetch : forall cursor, is_fetch (ev cursor) = true.

Lemma bind_step {A B} (m : Eff C A) (f : A -> Eff C B) (w w' : World C)
    (a : A) :
  m w = Some (OK a, w') -> (m ≫= f) w = f a w'.
Proof. intros Hm. unfold mbind, eff_bind. rewrite Hm. reflexivity. Qed.

Lemma api_call_step (c c' : C) (cursor : option PyVal) (response : PyVal)
    (tr : list event) :
  call c cursor = (OK response, c') ->
  api_call call ev cursor {| client := c; trace := tr |} =
  Some (OK response, {| client := c'; trace := tr ++ [ev cursor] |}).
Proof. intros Hc. unfold api_call. simpl. rewrite Hc. reflexivity. Qed.

(** One turn of the loop. *)
Lemma fetch_rest_turn (fuel : nat) (response response' cursor : PyVal)
    (acc page : list PyVal) (c c' : C) (tr : list event) :
  Py.getitem response (PyStr "has_more") = OK (PyBool true) ->
  Py.getitem response (PyStr "next_cursor") = OK cursor ->
  call c (Some cursor) = (OK response', c') ->
  Py.getitem response' (PyStr "results") = OK (PyList page) ->
  fetch_rest (api_call call ev) (S fuel) response (PyList acc)
    {| client := c; trace := tr |} =
  fetch_rest (api_call call ev) fuel response' (PyList (acc ++ page))
    {| client := c'; trace := tr ++ [Sleep; ev (Some cursor)] |}.
Proof.
  intros Hm Hn Hcall Hres. cbn [fetch_rest]. rewrite Hm, Hn.
  unfold mbind at 1, eff_bind at 1, lift at 1. cbn [Py.truthy].
  unfold mbind at 1, eff_bind at 1, sleep at 1. cbn [client trace].
  unfold mbind at 1, eff_bind at 1, lift at 1.
  unfold mbind at 1, eff_bind at 1.
  rewrite (api_call_step _ _ _ _ _ Hcall). rewrite Hres.
  unfold mbind at 1, eff_bind at 1, lift at 1.
  unfold mbind at 1, eff_bind at 1, lift at 1. cbn [Py.iadd Py.iter mbind result_bind].
  rewrite <- app_assoc. reflexivity.
Qed.

(** The loop stops on a response that announces no more. *)
Lemma fetch_rest_stop (fuel : nat) (response results : PyVal) (w : World C) :
  Py.getitem response (PyStr "has_more") = OK (PyBool false) ->
  fetch_rest (api_call call ev) fuel response results w = Some (OK results, w).
Proof.
  intros Hm. destruct fuel; cbn [fetch_rest]; rewrite Hm; reflexivity.
Qed.

(** The loop, entered with a response that announces more: it fetches the
    pages the endpoint serves from there and appends them in order. *)
Lemma fetch_rest_serves (pages : list (list PyVal)) (c c' : C)
    (cursor : PyVal) :
  serves call c (Some cursor) pages c' ->
  forall (fuel : nat) (response : PyVal) (acc : list PyVal)
         (tr : list event),
    (List.length pages <= fuel)%nat ->
    Py.getitem response (PyStr "has_more") = OK (PyBool true) ->
    Py.getitem response (PyStr "next_cursor") = OK cursor ->
    exists tr',
      fetch_rest (api_call call ev) fuel response (PyList acc)
        {| client := c; trace := tr |} =
      Some (OK (PyList (acc ++ concat pages)),
            {| client := c'; trace := tr ++ tr' |}) /\
      fetches tr' = List.length pages /\
      sleeps tr' = List.length pages.
Proof.
  remember (Some cursor) as start eqn:Hstart.
  intros Hserves. revert cursor Hstart.
  induction Hserves as [c start response' c' page Hcall Hres Hmore
                       |c start response' c' page next pages c'' Hcall Hres
                          Hmore Hnext Hserves IH];
    intros cursor -> fuel response acc tr Hfuel Hm Hn;
    (destruct fuel as [|fuel]; [simpl in Hfuel; lia|]);
    rewrite (fetch_rest_turn fuel response response' cursor acc page c c' tr
               Hm Hn Hcall Hres).
  - exists [Sleep; ev (Some cursor)]. split; [|split].
    + rewrite fetch_rest_stop by exact Hmore.
      simpl. rewrite app_nil_r. reflexivity.
    + unfold fetches. simpl. rewrite ev_is_fetch. reflexivity.
    + unfold sleeps. simpl. rewrite ev_is_fetch. reflexivity.
  - simpl in Hfuel.
    destruct (IH next eq_refl fuel response' (acc ++ page)%list
                 (tr ++ [Sleep; ev (Some cursor)])%list ltac:(lia) Hmore Hnext)
      as (tr' & Hrun & Hf & Hs).
    exists ([Sleep; ev (Some cursor)] ++ tr')%list. split; [|split].
    + rewrite Hrun. simpl. rewrite <- !app_assoc. reflexivity.
    + rewrite fetches_app, Hf. unfold fetches. simpl.
      rewrite ev_is_fetch. reflexivity.
    + rewrite sleeps_app, Hs. unfold sleeps. simpl.
      rewrite ev_is_fetch. reflexivity.
Qed.

(** The collector: the first call and the loop fetch exactly the pages the
    endpoint serves and return their items in the order of arrival. *)
Lemma fetch_all_serves (pages : list (list PyVal)) (c c' : C) (fuel : nat)
    (tr : list event) :
  serves call c None pages c' ->
  (List.length pages <= S fuel)%nat ->
  exists tr',
    fetch_all (api_call call ev) fuel {| client := c; trace := tr |} =
    Some (OK (PyList (concat pages)),
          {| client := c'; trace := tr ++ tr' |}) /\
    fetches tr' = List.length pages /\
    S (sleeps tr') = List.length pages.
Proof.
  intros Hserves Hfuel. unfold fetch_all.
  inversion Hserves as [c0 start response c1 page Hcall Hres Hmore
                       |c0 start response c1 page next rest c2 Hcall Hres
                          Hmore Hnext Hrest]; subst.
  - exists [ev None]. split; [|split].
    + rewrite (bind_step _ _ _ _ _ (api_call_step _ _ _ _ tr Hcall)).
      rewrite Hres. unfold mbind at 1, eff_bind at 1, lift at 1.
      rewrite fetch_rest_stop by exact Hmore.
      simpl. rewrite app_nil_r. reflexivity.
    + unfold fetches. simpl. rewrite ev_is_fetch. reflexivity.
    + unfold sleeps. simpl. rewrite ev_is_fetch. reflexivity.
  - simpl in Hfuel.
    destruct (fetch_rest_serves rest c1 c' next Hrest fuel response page
                (tr ++ [ev None])%list ltac:(lia) Hmore Hnext)
      as (tr' & Hrun & Hf & Hs).
    exists ([ev None] ++ tr')%list. split; [|split].
    + rewrite (bind_step _ _ _ _ _ (api_call_step _ _ _ _ tr Hcall)).
      rewrite Hres. unfold mbind at 1, eff_bind at 1, lift at 1.
      rewrite Hrun. simpl. rewrite <- !app_assoc. reflexivity.
    + rewrite fetches_app, Hf. unfold fetches. simpl.
      rewrite ev_is_fetch. reflexivity.
    + rewrite sleeps_app, Hs. unfold sleeps. simpl.
      rewrite ev_is_fetch. reflexivity.
Qed.

End PagingFacts.

Lemma pd_DataFrame_rows (records : list record) :
  List.length (data (pd_DataFrame records)) = List.length records.
Proof. unfold pd_DataFrame. simpl. apply List.length_map. Qed.

Lemma hierarchical_columns_rows (df : DataFrame) :
  data (hierarchical_columns df) = data df.
Proof.
  unfold hierarchical_columns. destruct (existsb is_tuple (columns df));
    reflexivity.
Qed.

(** One row per page of the database. *)
Lemma pages_to_dataframe_rows (parse_datetime : string -> option timestamp)
    (dh : string) (dhs : option (gmap string string)) (l : list PyVal)
    (df : DataFrame) :
  pages_to_dataframe parse_datetime dh dhs (PyList l) = OK df ->
  List.length (data df) = List.length l.
Proof.
  unfold pages_to_dataframe. cbn [Py.iter mbind result_bind].
  intros Hdf. bind_inv Hdf. injection Hdf as <-.
  rewrite hierarchical_columns_rows, pd_DataFrame_rows.
  eapply mapM_length. eassumption.
Qed.

(** One row per user. *)
Lemma users_table_rows (l : list PyVal) (df : DataFrame) :
  users_table (PyList l) = OK df ->
  List.length (data df) = List.length l.
Proof.
  unfold users_table. cbn [Py.iter mbind result_bind].
  intros Hdf. bind_inv Hdf. injection Hdf as <-.
  rewrite pd_DataFrame_rows. eapply mapM_length. eassumption.
Qed.

(** C6. When the successive calls of an endpoint serve the pages
    [P1 .. Pn], the first [n-1] responses with [has_more] true and the last
    with [has_more] false, the collector makes exactly these [n] calls,
    sleeps between them, and returns the items of [P1 .. Pn] in the order
    of arrival. Both entry points build their table from this list, so the
    table has as many rows as the pages have items. The fuel only has to
    cover the [n-1] turns of the loop. *)
Theorem pagination_collects_all_pages {C : Type} `{NotionClient C}
    (parse_datetime : string -> option timestamp) (c c' : C)
    (pages : list (list PyVal)) (fuel : nat) (tr : list event) :
  (List.length pages <= S fuel)%nat ->
  (forall database_id dh dhs,
     serves (fun c => databases_query c database_id) c None pages c' ->
     exists tr',
       let w := {| client := c; trace := tr |} in
       let w' := {| client := c'; trace := tr ++ tr' |} in
       fetch_all (query database_id) fuel w =
         Some (OK (PyList (concat pages)), w') /\
       fetches tr' = List.length pages /\
       S (sleeps tr') = List.length pages /\
       database_to_dataframe parse_datetime fuel database_id dh dhs w =
         Some (pages_to_dataframe parse_datetime dh dhs
                 (PyList (concat pages)), w') /\
       forall df,
         pages_to_dataframe parse_datetime dh dhs (PyList (concat pages))
           = OK df ->
         List.length (data df) = list_sum (map List.length pages)) /\
  (serves users_list c None pages c' ->
   exists tr',
     let w := {| client := c; trace := tr |} in
     let w' := {| client := c'; trace := tr ++ tr' |} in
     fetch_all list_users fuel w = Some (OK (PyList (concat pages)), w') /\
     fetches tr' = List.length pages /\
     S (sleeps tr') = List.length pages /\
     users_to_dataframe fuel w =
       Some (users_table (PyList (concat pages)), w') /\
     forall df,
       users_table (PyList (concat pages)) = OK df ->
       List.length (data df) = list_sum (map List.length pages)).
Proof.
  intros Hfuel. split.
  - intros database_id dh dhs Hserves.
    destruct (fetch_all_serves (fun c => databases_query c database_id)
                (DatabasesQuery database_id) (fun _ => eq_refl)
                pages c c' fuel tr Hserves Hfuel) as (tr' & Hrun & Hf & Hs).
    exists tr'. cbv zeta. fold (query database_id) in Hrun.
    split; [exact Hrun|]. split; [exact Hf|]. split; [exact Hs|]. split.
    + unfold database_to_dataframe.
      rewrite (bind_step _ _ _ _ _ Hrun). reflexivity.
    + intros df Hdf. rewrite <- List.length_concat.
      exact (pages_to_dataframe_rows _ _ _ _ _ Hdf).
  - intros Hserves.
    destruct (fetch_all_serves users_list UsersList (fun _ => eq_refl)
                pages c c' fuel tr Hserves Hfuel) as (tr' & Hrun & Hf & Hs).
    exists tr'. cbv zeta. fold list_users in Hrun.
    split; [exact Hrun|]. split; [exact Hf|]. split; [exact Hs|]. split.
    + unfold users_to_dataframe.
      rewrite (bind_step _ _ _ _ _ Hrun). reflexivity.
    + intros df Hdf. rewrite <- List.length_concat.
      exact (users_table_rows _ _ Hdf).
Qed.

(** The three pages of the scripted client are served as [serves] says. *)
Lemma three_pages_served (database_id : string) :
  serves (fun c => databases_query c database_id) Sample.three_pages None
    [[Sample.task; Sample.task2]; [Sample.task3]; [Sample.task_undated]] [].
Proof.
  eapply serves_more; [reflexivity..|].
  eapply serves_more; [reflexivity..|].
  eapply serves_last; reflexivity.
Defined.

Lemma two_user_pages_served :
  serves users_list Sample.two_user_pages None
    [[Sample.person]; [Sample.bot]] [].
Proof.
  eapply serves_more; [reflexivity..|].
  eapply serves_last; reflexivity.
Defined.

(** Three pages of a database and two pages of users, collected: three
    and two calls, tables of four and two rows. *)
Lemma pagination_witness :
  (exists tr' df,
     fetch_all (query "db") 2 (Sample.world Sample.three_pages) =
       Some (OK (PyList [Sample.task; Sample.task2; Sample.task3;
                         Sample.task_undated]),
             {| client := []; trace := tr' |}) /\
     fetches tr' = 3%nat /\
     database_to_dataframe Sample.parse 2 "db" "ignore_end" None
       (Sample.world Sample.three_pages) =
       Some (OK df, {| client := []; trace := tr' |}) /\
     List.length (data df) = 4%nat) /\
  (exists tr' df,
     fetch_all list_users 1 (Sample.world Sample.two_user_pages) =
       Some (OK (PyList [Sample.person; Sample.bot]),
             {| client := []; trace := tr' |}) /\
     fetches tr' = 2%nat /\
     users_to_dataframe 1 (Sample.world Sample.two_user_pages) =
       Some (OK df, {| client := []; trace := tr' |}) /\
     List.length (data df) = 2%nat).
Proof.
  split.
  - destruct (proj1 (pagination_collects_all_pages Sample.parse
                       Sample.three_pages []
                       [[Sample.task; Sample.task2]; [Sample.task3];
                        [Sample.task_undated]] 2 [] (le_n 3))
                    "db" "ignore_end" None (three_pages_served "db"))
      as (tr' & Hrun & Hf & _ & Hdf & Hrows).
    assert (Htable : exists df,
              pages_to_dataframe Sample.parse "ignore_end" None
                (PyList [Sample.task; Sample.task2; Sample.task3;
                         Sample.task_undated]) = OK df).
    { eexists. vm_compute. reflexivity. }
    destruct Htable as [df Htable].
    exists tr', df. split; [exact Hrun|]. split; [exact Hf|]. split.
    + refine (eq_trans Hdf _). simpl concat. rewrite Htable. reflexivity.
    + exact (Hrows df Htable).
  - destruct (proj2 (pagination_collects_all_pages Sample.parse
                       Sample.two_user_pages []
                       [[Sample.person]; [Sample.bot]] 1 [] (le_n 2))
                    two_user_pages_served)
      as (tr' & Hrun & Hf & _ & Hdf & Hrows).
    assert (Htable : exists df,
              users_table (PyList [Sample.person; Sample.bot]) = OK df).
    { eexists. vm_compute. reflexivity. }
    destruct Htable as [df Htable].
    exists tr', df. split; [exact Hrun|]. split; [exact Hf|]. split.
    + refine (eq_trans Hdf _). simpl concat. rewrite Htable. reflexivity.
    + exact (Hrows df Htable).
Defined.

(** ** Policy strings are not validated (C2) *)

Ltac in_list := apply list_elem_of_In; simpl; tauto.

Section ConfigurationFacts.

Context {C : Type} `{NotionClient C}.
Variable parse_datetime : string -> option timestamp.

Abbreviation simplify := (_simplify_notion_property_value parse_datetime).
Abbreviation flatten := (flatten_property parse_datetime).
Abbreviation page_to_dict := (_page_to_simple_dict parse_datetime).

Lemma policy_of_handler (dh : string) (dhs : option (gmap string string))
    (name : string) :
  policy_is dh dhs name (default dh (default ∅ dhs !! name)).
Proof.
  unfold policy_is. destruct dhs as [m|]; simpl.
  - destruct (m !! name); simpl; auto.
  - rewrite lookup_empty. reflexivity.
Qed.

(** Whether the loop body raises does not depend on the record, and an
    unrecognised policy only removes occasions to raise. *)
Lemma flatten_weaker (dh : string) (dhs : option (gmap string string))
    (dh' : string) (dhs' : option (gmap string string)) (r r' r1' : record)
    (p : string) (v : PyVal) :
  weakens dh dhs dh' dhs' ->
  flatten dh' (default ∅ dhs') r' (p, v) = OK r1' ->
  exists r1, flatten dh (default ∅ dhs) r (p, v) = OK r1.
Proof.
  intros Hw Hstep. unfold flatten_property in *.
  destruct (simplify v) as [extracted|]; cbn [mbind result_bind] in *;
    [|discriminate].
  destruct (Py.getitem v (PyStr "type")) as [type_|];
    cbn [mbind result_bind] in *; [|discriminate].
  destruct (Py.eq_str type_ "date"); [|eauto].
  pose proof (policy_of_handler dh dhs p) as Hpol.
  set (h := default dh (default ∅ dhs !! p)) in *.
  assert (Hrec : h ∈ recognised_handlers ->
                 default dh' (default ∅ dhs' !! p) = h).
  { intros Hin. apply handler_of_policy, Hw; assumption. }
  clearbody h.
  destruct (String.eqb_spec h "ignore_end") as [->|_].
  { rewrite Hrec in Hstep by (unfold recognised_handlers; in_list).
    cbn [String.eqb Ascii.eqb Bool.eqb] in Hstep.
    bind_inv Hstep. eauto. }
  destruct (String.eqb_spec h "mangle") as [->|_].
  { rewrite Hrec in Hstep by (unfold recognised_handlers; in_list).
    cbn [String.eqb Ascii.eqb Bool.eqb] in Hstep.
    bind_inv Hstep. bind_inv Hstep. eauto. }
  destruct (String.eqb_spec h "multiindex") as [->|_].
  { rewrite Hrec in Hstep by (unfold recognised_handlers; in_list).
    cbn [String.eqb Ascii.eqb Bool.eqb] in Hstep.
    bind_inv Hstep. bind_inv Hstep. eauto. }
  eauto.
Qed.

Lemma for_each_weaker (dh : string) (dhs : option (gmap string string))
    (dh' : string) (dhs' : option (gmap string string))
    (props : list (string * PyVal)) (r r' rec' : record) :
  weakens dh dhs dh' dhs' ->
  for_each (flatten dh' (default ∅ dhs')) props r' = OK rec' ->
  exists rec, for_each (flatten dh (default ∅ dhs)) props r = OK rec.
Proof.
  intros Hw. revert r r'.
  induction props as [|[p v] props IH]; intros r r' Hrun;
    cbn [for_each] in *.
  - eauto.
  - bind_inv Hrun.
    destruct (flatten_weaker dh dhs dh' dhs' r r' _ p v Hw E) as [r1 ->].
    cbn [mbind result_bind]. eapply IH. eassumption.
Qed.

Lemma page_weaker (dh : string) (dhs : option (gmap string string))
    (dh' : string) (dhs' : option (gmap string string)) (page : PyVal)
    (rec' : record) :
  weakens dh dhs dh' dhs' ->
  page_to_dict page dh' dhs' = OK rec' ->
  exists rec, page_to_dict page dh dhs = OK rec.
Proof.
  intros Hw Hrec. unfold _page_to_simple_dict in *.
  repeat bind_inv Hrec.
  cbn [mbind result_bind].
  repeat match goal with
         | E : ?m = OK _ |- context [?m ≫= _] =>
             rewrite E; cbn [mbind result_bind]
         end.
  eapply for_each_weaker; eassumption.
Qed.

Lemma pages_weaker (dh : string) (dhs : option (gmap string string))
    (dh' : string) (dhs' : option (gmap string string))
    (pages : list PyVal) (recs' : list record) :
  weakens dh dhs dh' dhs' ->
  mapM (fun page => page_to_dict page dh' dhs') pages = OK recs' ->
  exists recs, mapM (fun page => page_to_dict page dh dhs) pages = OK recs.
Proof.
  intros Hw. revert recs'.
  induction pages as [|page pages IH]; intros recs' Hrun;
    cbn [mapM] in *.
  - eauto.
  - bind_inv Hrun. bind_inv Hrun.
    destruct (page_weaker dh dhs dh' dhs' page _ Hw E) as [rec ->].
    destruct (IH _ eq_refl) as [recs ->].
    cbn [mbind result_bind]. eauto.
Qed.

(** C2, as the code has it. The policy strings are never validated. Whatever
    they are, the call makes the calls of the collector, so that an
    unrecognised string cannot stop it before a fetch; and a call whose
    policies are unrecognised strings where those of another call are
    recognised returns a table, with as many rows, whenever the other call
    returns one: an unrecognised policy raises nothing. *)
Theorem policies_are_not_validated (fuel : nat) (database_id : string)
    (dh : string) (dhs : option (gmap string string)) (w : World C) :
  (snd <$> database_to_dataframe parse_datetime fuel database_id dh dhs w) =
    (snd <$> fetch_all (query database_id) fuel w) /\
  (forall dh' dhs' df' w',
     weakens dh dhs dh' dhs' ->
     database_to_dataframe parse_datetime fuel database_id dh' dhs' w =
       Some (OK df', w') ->
     exists df,
       database_to_dataframe parse_datetime fuel database_id dh dhs w =
         Some (OK df, w') /\
       List.length (data df) = List.length (data df')).
Proof.
  unfold database_to_dataframe, mbind, eff_bind, lift.
  destruct (fetch_all (query database_id) fuel w) as [[[results|e] w1]|].
  - split; [reflexivity|].
    intros dh' dhs' df' w' Hw [= Hdf <-].
    unfold pages_to_dataframe in *.
    destruct (Py.iter results) as [pages|]; cbn [mbind result_bind] in *;
      [|discriminate].
    bind_inv Hdf. injection Hdf as <-.
    destruct (pages_weaker dh dhs dh' dhs' pages _ Hw E) as [recs Hrecs].
    rewrite Hrecs. cbn [mbind result_bind]. eexists. split; [reflexivity|].
    rewrite !hierarchical_columns_rows, !pd_DataFrame_rows.
    rewrite (mapM_length _ _ _ Hrecs), (mapM_length _ _ _ E). reflexivity.
  - split; [reflexivity|]. intros dh' dhs' df' w' _ [=].
  - split; [reflexivity|]. intros dh' dhs' df' w' _ [=].
Qed.

End ConfigurationFacts.

(** An unrecognised policy string does not make the call fail, before a
    fetch or after: with the default "bogus" the call queries the database
    once and returns a table, which lacks the column of the date "Due". *)
Lemma unrecognised_policy_is_accepted :
  ("bogus" ∉ recognised_handlers) /\
  exists df,
    database_to_dataframe Sample.parse 0 "db" "bogus" None
      (Sample.world [OK (Sample.response [Sample.task] false PyNone)]) =
    Some (OK df, {| client := []; trace := [DatabasesQuery "db" None] |}) /\
    columns df = [Name "_notion_id"; Name "_created_time";
                  Name "_last_edited_time"; Name "_notion_url";
                  Name "Name"; Name "Done"].
Proof.
  split.
  - unfold recognised_handlers. not_a_key.
  - eexists. split; vm_compute; reflexivity.
Qed.

(** The three sample pages under the default "bogus": a table of four
    rows, as under "ignore_end". *)
Lemma policies_witness :
  exists df w',
    database_to_dataframe Sample.parse 2 "db" "bogus" None
      (Sample.world Sample.three_pages) = Some (OK df, w') /\
    List.length (data df) = 4%nat.
Proof.
  assert (Hweak : weakens "bogus" None "ignore_end" None).
  { intros name h Hpol Hin. simpl in Hpol. subst h.
    exfalso. revert Hin. unfold recognised_handlers. not_a_key. }
  assert (Hok : exists df' w',
             database_to_dataframe Sample.parse 2 "db" "ignore_end" None
               (Sample.world Sample.three_pages) = Some (OK df', w') /\
             List.length (data df') = 4%nat).
  { eexists. eexists. split; vm_compute; reflexivity. }
  destruct Hok as (df' & w' & Hok & Hlen).
  destruct (proj2 (policies_are_not_validated Sample.parse 2 "db" "bogus"
                     None (Sample.world Sample.three_pages))
                  "ignore_end" None df' w' Hweak Hok) as (df & Hrun & Hrows).
  exists df, w'. split; [exact Hrun|]. rewrite Hrows. exact Hlen.
Defined.

(** * Further properties of the module *)

(** ** The other branches of the normaliser *)

Lemma mapM_Forall2 {A B} (f : A -> result B) (xs : list A) (ys : list B) :
  Forall2 (fun x y => f x = OK y) xs ys -> mapM f xs = OK ys.
Proof.
  induction 1 as [|x y xs ys Hx _ IH]; cbn [mapM]; [reflexivity|].
  rewrite Hx. cbn [mbind result_bind]. rewrite IH. reflexivity.
Qed.

(** A comprehension raises what its first failing element raises. *)
Lemma mapM_first_error {A B} (f : A -> result B) (l1 l2 : list A) (x : A)
    (e : exn) :
  (forall y, In y l1 -> exists z, f y = OK z) ->
  f x = Err e ->
  mapM f (l1 ++ x :: l2) = Err e.
Proof.
  intros Hok Hx. induction l1 as [|y l1 IH]; cbn [mapM app].
  - rewrite Hx. reflexivity.
  - destruct (Hok y (or_introl eq_refl)) as [z ->]. cbn [mbind result_bind].
    rewrite IH; [reflexivity|]. intros y' Hy'. apply Hok. right. exact Hy'.
Qed.

Section MoreNormaliserFacts.

Variable parse_datetime : string -> option timestamp.

Abbreviation simplify := (_simplify_notion_property_value parse_datetime).

(** Entering the dispatch of a tagged value. *)
Ltac enter Htag :=
  let Ht := fresh "Ht" in
  let Ho := fresh "Ho" in
  destruct Htag as [Ht Ho];
  rewrite simplify_unfold; unfold simplify_body;
  rewrite Ht; cbn [mbind result_bind];
  rewrite Ho; cbn [mbind result_bind].

(** X1. Under the six passthrough tags the payload comes back as it is.
    Only [None] counts as missing: a number 0, an empty string or any other
    falsy payload is returned, not turned into [None]. *)
Theorem passthrough_keeps_payload (value : PyVal) (tag : string)
    (obj : PyVal) :
  tagged value tag obj ->
  tag ∈ passthrough_tags ->
  simplify value = OK obj.
Proof.
  intros [Ht Ho] Hin.
  apply (passthrough_payload parse_datetime value tag obj Ht Ho).
  right. exact Hin.
Qed.

(** X2. A checkbox normalises to a Python boolean, the truth value of its
    payload: an unchecked box gives [False], which is not the [None] of a
    missing payload. *)
Theorem checkbox_is_boolean (value obj : PyVal) :
  tagged value "checkbox" obj ->
  obj <> PyNone ->
  simplify value = OK (PyBool (Py.truthy obj)) /\
  (forall b, obj = PyBool b -> simplify value = OK (PyBool b)).
Proof.
  intros Htag Hobj.
  assert (Heq : simplify value = OK (PyBool (Py.truthy obj))).
  { enter Htag. destruct obj; try congruence; reflexivity. }
  split; [exact Heq|]. intros b ->. exact Heq.
Qed.

Lemma names_if_present_dicts (ds : list (list (string * PyVal))) :
  names_if_present (map PyDict ds) = OK (omap (Py.lookup "name") ds).
Proof.
  induction ds as [|d ds IH]; cbn [names_if_present map omap list_omap];
    [reflexivity|].
  cbn [Py.contains mbind result_bind Py.getitem].
  destruct (Py.lookup "name" d) as [n|] eqn:Hn.
  - rewrite bool_decide_true by eauto. cbn [mbind result_bind].
    rewrite IH. reflexivity.
  - rewrite bool_decide_false by (intros [? [=]]). exact IH.
Qed.

(** X3. The people of a property are normalised to the list of their names,
    in order; a person without a name (a deleted user, a bot) is left out
    and nothing is raised. *)
Theorem people_without_name_are_skipped (value : PyVal)
    (ds : list (list (string * PyVal))) :
  tagged value "people" (PyList (map PyDict ds)) ->
  simplify value = OK (PyList (omap (Py.lookup "name") ds)) /\
  (List.length (omap (Py.lookup "name") ds) <= List.length ds)%nat.
Proof.
  intros Htag. split.
  - enter Htag. cbn [Py.is_None]. decide_tags.
    cbn [Py.iter mbind result_bind]. rewrite names_if_present_dicts.
    reflexivity.
  - clear Htag. induction ds as [|d ds IH]; cbn [omap list_omap];
      [reflexivity|].
    destruct (Py.lookup "name" d); simpl; lia.
Qed.

(** X4. An author without a name: [last_edited_by] normalises to [None],
    while [created_by], and likewise a [select] option, raise [KeyError]. *)
Theorem attribution_without_name (value : PyVal)
    (entries : list (string * PyVal)) :
  Py.lookup "name" entries = None ->
  (tagged value "last_edited_by" (PyDict entries) ->
   simplify value = OK PyNone) /\
  (tagged value "created_by" (PyDict entries) ->
   simplify value = Err KeyError) /\
  (tagged value "select" (PyDict entries) ->
   simplify value = Err KeyError).
Proof.
  intros Hn. repeat split; intros Htag; enter Htag; cbn [Py.is_None];
    decide_tags; cbn [Py.get Py.getitem]; rewrite Hn; reflexivity.
Qed.

Lemma mapM_key_present (k : string) (ds : list (list (string * PyVal))) :
  Forall (fun d => is_Some (Py.lookup k d)) ds ->
  mapM (fun v => Py.getitem v (PyStr k)) (map PyDict ds) =
  OK (omap (Py.lookup k) ds) /\
  List.length (omap (Py.lookup k) ds) = List.length ds.
Proof.
  induction 1 as [|d ds [v Hv] _ [IH1 IH2]];
    cbn [mapM map omap list_omap]; [split; reflexivity|].
  cbn [Py.getitem]. rewrite Hv. cbn [mbind result_bind]. rewrite IH1.
  split; [reflexivity|]. simpl. rewrite IH2. reflexivity.
Qed.

Lemma mapM_key_missing (k : string) (ds : list (list (string * PyVal))) :
  Exists (fun d => Py.lookup k d = None) ds ->
  mapM (fun v => Py.getitem v (PyStr k)) (map PyDict ds) = Err KeyError.
Proof.
  induction ds as [|d ds IH]; intros Hex; [inversion Hex|].
  cbn [mapM map Py.getitem].
  destruct (Py.lookup k d) as [v|] eqn:Hv; [|reflexivity].
  cbn [mbind result_bind]. rewrite IH; [reflexivity|].
  inversion Hex as [? ? Hnone|]; subst; [congruence|assumption].
Qed.

(** X5. A relation normalises to the identifiers of the linked pages and a
    multi-select to the names of the chosen options, one per entry and in
    order; an entry that lacks the field makes the call raise [KeyError]
    (no entry is skipped, unlike for people). *)
Theorem relation_and_multi_select (value : PyVal) (tag field : string)
    (ds : list (list (string * PyVal))) :
  (tag = "relation" /\ field = "id") \/
  (tag = "multi_select" /\ field = "name") ->
  tagged value tag (PyList (map PyDict ds)) ->
  (Forall (fun d => is_Some (Py.lookup field d)) ds ->
   simplify value = OK (PyList (omap (Py.lookup field) ds)) /\
   List.length (omap (Py.lookup field) ds) = List.length ds) /\
  (Exists (fun d => Py.lookup field d = None) ds ->
   simplify value = Err KeyError).
Proof.
  intros Hcase Htag.
  assert (Heq : simplify value =
                (xs ← mapM (fun v => Py.getitem v (PyStr field))
                           (map PyDict ds);
                 OK (PyList xs))).
  { destruct Hcase as [[-> ->]|[-> ->]]; enter Htag; cbn [Py.is_None];
      decide_tags; reflexivity. }
  split.
  - intros Hall. destruct (mapM_key_present field ds Hall) as [Hm Hl].
    rewrite Heq, Hm. split; [reflexivity|exact Hl].
  - intros Hex. rewrite Heq, (mapM_key_missing field ds Hex). reflexivity.
Qed.




(** X7. A rollup whose kind is not "array" (a number, a date) normalises,
    like a formula, to the payload found under its kind, as the API sends
    it: a date rollup gives the raw payload, not a pair of timestamps. *)
Theorem rollup_scalar_returns_payload (value obj : PyVal) (kind : string) :
  tagged value "rollup" obj ->
  Py.getitem obj (PyStr "type") = OK (PyStr kind) ->
  kind <> "array" ->
  simplify value = Py.getitem obj (PyStr kind).
Proof.
  intros Htag Hk Hkind. enter Htag.
  destruct (getitem_str_dict _ _ _ Hk) as (entries & -> & _).
  cbn [Py.is_None]. decide_tags. rewrite Hk. cbn [mbind result_bind].
  cbn [Py.eq_str]. rewrite (proj2 (String.eqb_neq kind "array") Hkind).
  reflexivity.
Qed.

(** X8. A rollup array gives no partial list: when one of its elements
    cannot be normalised, the call raises what the first such element
    raises. *)
Theorem rollup_array_raises_with_element (value obj : PyVal)
    (l1 l2 : list PyVal) (x : PyVal) (e : exn) :
  tagged value "rollup" obj ->
  Py.getitem obj (PyStr "type") = OK (PyStr "array") ->
  Py.getitem obj (PyStr "array") = OK (PyList (l1 ++ x :: l2)) ->
  (forall y, In y l1 -> exists z, simplify y = OK z) ->
  simplify x = Err e ->
  simplify value = Err e.
Proof.
  intros Htag Hk Ha Hok Hx. enter Htag.
  destruct (getitem_str_dict _ _ _ Hk) as (entries & -> & _).
  cbn [Py.is_None]. decide_tags. rewrite Hk. cbn [mbind result_bind].
  decide_tags. rewrite Ha. cbn [mbind result_bind Py.iter].
  rewrite (mapM_first_error simplify l1 l2 x e Hok Hx). reflexivity.
Qed.

(** X9. A value of the wrong shape raises before the dispatch: [TypeError]
    when it is no dict, [KeyError] when it has no "type" or no payload
    under its tag. *)
Theorem malformed_value_raises (value : PyVal) :
  ((forall entries, value <> PyDict entries) ->
   simplify value = Err TypeError) /\
  (forall entries,
     value = PyDict entries ->
     (Py.lookup "type" entries = None -> simplify value = Err KeyError) /\
     (forall tag, Py.lookup "type" entries = Some (PyStr tag) ->
                  Py.lookup tag entries = None ->
                  simplify value = Err KeyError)).
Proof.
  split.
  - intros Hnd. rewrite simplify_unfold. unfold simplify_body.
    destruct value; try reflexivity. exfalso. eapply Hnd. reflexivity.
  - intros entries ->. split.
    + intros Hn. rewrite simplify_unfold. unfold simplify_body.
      cbn [Py.getitem]. rewrite Hn. reflexivity.
    + intros tag Ht Hn. rewrite simplify_unfold. unfold simplify_body.
      cbn [Py.getitem]. rewrite Ht. cbn [mbind result_bind Py.getitem].
      rewrite Hn. reflexivity.
Qed.

(** X10. The files of a property are normalised to their URLs, each read
    in the sub-object that the file's own type names ("file" or
    "external"). *)
Theorem file_urls (value : PyVal) (xs us : list PyVal) :
  tagged value "files" (PyList xs) ->
  Forall2 (fun x u => exists t sub,
             Py.getitem x (PyStr "type") = OK (PyStr t) /\
             Py.getitem x (PyStr t) = OK sub /\
             Py.getitem sub (PyStr "url") = OK u) xs us ->
  simplify value = OK (PyList us).
Proof.
  intros Htag Hfiles. enter Htag. cbn [Py.is_None]. decide_tags.
  cbn [Py.iter mbind result_bind].
  rewrite (mapM_Forall2 _ xs us); [reflexivity|].
  clear Ho.
  induction Hfiles as [|x u xs us (t & sub & Ht' & Hs & Hu) _ IH];
    [constructor|].
  constructor; [|exact IH].
  rewrite Ht'. cbn [mbind result_bind]. rewrite Hs. cbn [mbind result_bind].
  exact Hu.
Qed.

End MoreNormaliserFacts.

Ltac tagged_sample := split; reflexivity.

Lemma passthrough_witness :
  _simplify_notion_property_value Sample.parse
    (Sample.property "number" (PyNum 0)) = OK (PyNum 0).
Proof.
  apply (passthrough_keeps_payload Sample.parse _ "number" (PyNum 0)).
  - tagged_sample.
  - unfold passthrough_tags. in_list.
Defined.

Lemma checkbox_witness :
  _simplify_notion_property_value Sample.parse
    (Sample.property "checkbox" (PyBool false)) = OK (PyBool false).
Proof.
  apply (proj1 (checkbox_is_boolean Sample.parse
                  (Sample.property "checkbox" (PyBool false)) (PyBool false)
                  ltac:(tagged_sample) ltac:(discriminate))).
Defined.

Lemma people_witness :
  _simplify_notion_property_value Sample.parse More.people =
  OK (PyList [PyStr "Ada"; PyStr "Sync"]).
Proof.
  apply (proj1 (people_without_name_are_skipped Sample.parse More.people
           [[("object", PyStr "user"); ("id", PyStr "u1");
             ("name", PyStr "Ada")];
            [("object", PyStr "user"); ("id", PyStr "u9")];
            [("object", PyStr "user"); ("id", PyStr "u2");
             ("name", PyStr "Sync")]] ltac:(tagged_sample))).
Defined.

Lemma attribution_witness :
  _simplify_notion_property_value Sample.parse
    (Sample.property "last_edited_by"
       (PyDict [("object", PyStr "user"); ("id", PyStr "u9")])) = OK PyNone /\
  _simplify_notion_property_value Sample.parse
    (Sample.property "created_by"
       (PyDict [("object", PyStr "user"); ("id", PyStr "u9")])) =
    Err KeyError.
Proof.
  split.
  - apply (proj1 (attribution_without_name Sample.parse
                    (Sample.property "last_edited_by"
                       (PyDict [("object", PyStr "user");
                                ("id", PyStr "u9")]))
                    [("object", PyStr "user"); ("id", PyStr "u9")] eq_refl)).
    tagged_sample.
  - apply (proj1 (proj2 (attribution_without_name Sample.parse
                    (Sample.property "created_by"
                       (PyDict [("object", PyStr "user");
                                ("id", PyStr "u9")]))
                    [("object", PyStr "user"); ("id", PyStr "u9")] eq_refl))).
    tagged_sample.
Defined.

Lemma relation_witness :
  _simplify_notion_property_value Sample.parse
    (Sample.property "relation"
       (PyList [PyDict [("id", PyStr "p7")]; PyDict [("id", PyStr "p8")]])) =
  OK (PyList [PyStr "p7"; PyStr "p8"]).
Proof.
  apply (proj1 (proj1 (relation_and_multi_select Sample.parse
           (Sample.property "relation"
              (PyList [PyDict [("id", PyStr "p7")];
                       PyDict [("id", PyStr "p8")]]))
           "relation" "id" [[("id", PyStr "p7")]; [("id", PyStr "p8")]]
           (or_introl (conj eq_refl eq_refl)) ltac:(tagged_sample))
           ltac:(repeat constructor; eexists; reflexivity))).
Defined.


Lemma rollup_scalar_witness :
  _simplify_notion_property_value Sample.parse
    (Sample.property "rollup" Sample.formula_date_result) =
  OK (Sample.date_payload (PyStr "2021-03-01") PyNone).
Proof.
  apply (rollup_scalar_returns_payload Sample.parse
           (Sample.property "rollup" Sample.formula_date_result)
           Sample.formula_date_result "date" ltac:(tagged_sample) eq_refl).
  discriminate.
Defined.

Lemma rollup_array_error_witness :
  _simplify_notion_property_value Sample.parse
    (Sample.property "rollup"
       (PyDict [("type", PyStr "array");
                ("array", PyList [Sample.day; More.status; Sample.range])])) =
  Err (ValueError "I don't understand type status").
Proof.
  apply (rollup_array_raises_with_element Sample.parse _
           (PyDict [("type", PyStr "array");
                    ("array", PyList [Sample.day; More.status;
                                      Sample.range])])
           [Sample.day] [Sample.range] More.status).
  - tagged_sample.
  - reflexivity.
  - reflexivity.
  - intros y [<-|[]]. eexists. reflexivity.
  - reflexivity.
Defined.

Lemma malformed_value_witness :
  _simplify_notion_property_value Sample.parse (PyList []) = Err TypeError /\
  _simplify_notion_property_value Sample.parse
    (PyDict [("id", PyStr "x")]) = Err KeyError.
Proof.
  split.
  - apply (proj1 (malformed_value_raises Sample.parse (PyList []))).
    discriminate.
  - apply (proj1 (proj2 (malformed_value_raises Sample.parse
                           (PyDict [("id", PyStr "x")])) _ eq_refl)).
    reflexivity.
Defined.

Lemma file_urls_witness :
  _simplify_notion_property_value Sample.parse
    (Sample.property "files"
       (PyList [PyDict [("name", PyStr "a.pdf"); ("type", PyStr "external");
                        ("external", PyDict [("url", PyStr "https://a")])];
                PyDict [("name", PyStr "b.pdf"); ("type", PyStr "file");
                        ("file", PyDict [("url", PyStr "https://b")])]])) =
  OK (PyList [PyStr "https://a"; PyStr "https://b"]).
Proof.
  apply (file_urls Sample.parse _
           [PyDict [("name", PyStr "a.pdf"); ("type", PyStr "external");
                    ("external", PyDict [("url", PyStr "https://a")])];
            PyDict [("name", PyStr "b.pdf"); ("type", PyStr "file");
                    ("file", PyDict [("url", PyStr "https://b")])]]);
    [tagged_sample|].
  repeat constructor; do 2 eexists; repeat split; reflexivity.
Defined.

(** ** The record of a page *)

Lemma keys_setitem (r : record) (k : ColumnKey) (v : PyVal) :
  keys (setitem r k v) = if bool_decide (k ∈ keys r) then keys r
                         else (keys r ++ [k])%list.
Proof.
  unfold keys. induction r as [|[k' v'] r IH]; cbn [setitem map fst].
  - rewrite bool_decide_false by apply not_elem_of_nil. reflexivity.
  - destruct (decide (k' = k)) as [->|Hne]; cbn [map fst].
    + rewrite bool_decide_true by apply list_elem_of_here. reflexivity.
    + rewrite IH. destruct (bool_decide_reflect (k ∈ map fst r)) as [Hin|Hnin].
      * rewrite bool_decide_true by (apply list_elem_of_further; exact Hin).
        reflexivity.
      * rewrite bool_decide_false; [reflexivity|].
        intros [Heq|Hin]%elem_of_cons; [congruence|contradiction].
Qed.

Lemma grows_refl (r : record) : grows r r.
Proof.
  split; [|split]; auto. exists []. rewrite app_nil_r. reflexivity.
Qed.

Lemma grows_trans (r1 r2 r3 : record) : grows r1 r2 -> grows r2 r3 -> grows r1 r3.
Proof.
  intros ([x1 H1] & N1 & F1) ([x2 H2] & N2 & F2). split; [|split]; auto.
  exists (x1 ++ x2)%list. rewrite H2, H1, app_assoc. reflexivity.
Qed.

Lemma grows_setitem (r : record) (k : ColumnKey) (v : PyVal) :
  flat_key k -> grows r (setitem r k v).
Proof.
  intros Hk. unfold grows. rewrite keys_setitem.
  destruct (bool_decide_reflect (k ∈ keys r)) as [Hin|Hnin].
  - split; [|split]; auto. exists []. rewrite app_nil_r. reflexivity.
  - split; [eauto|]. split.
    + intros Hnd. apply NoDup_app. split; [exact Hnd|]. split.
      * intros x Hx [->|[]%elem_of_nil]%elem_of_cons. contradiction.
      * apply NoDup_singleton.
    + intros Hf. apply Forall_app. split; [exact Hf|]. constructor; auto.
Qed.

Section MoreFlattenerFacts.

Variable parse_datetime : string -> option timestamp.

Abbreviation simplify := (_simplify_notion_property_value parse_datetime).
Abbreviation flatten := (flatten_property parse_datetime).
Abbreviation page_to_dict := (_page_to_simple_dict parse_datetime).

Lemma flatten_grows (dh : string) (dhs : gmap string string) (r r' : record)
    (p : string) (v : PyVal) :
  flatten dh dhs r (p, v) = OK r' -> grows r r'.
Proof.
  intros Hstep. unfold flatten_property in Hstep.
  bind_inv Hstep. bind_inv Hstep.
  repeat match type of Hstep with
         | (if ?b then _ else _) = OK _ => destruct b
         | (_ ≫= _) = OK _ => bind_inv Hstep
         end;
    injection Hstep as <-;
    repeat first [ apply grows_refl
                 | eapply grows_trans; [|apply grows_setitem; simpl; auto] ].
Qed.

Lemma for_each_grows (dh : string) (dhs : gmap string string)
    (props : list (string * PyVal)) (r r' : record) :
  for_each (flatten dh dhs) props r = OK r' -> grows r r'.
Proof.
  revert r. induction props as [|[p v] props IH]; intros r Hrun;
    cbn [for_each] in Hrun.
  - injection Hrun as <-. apply grows_refl.
  - bind_inv Hrun. eapply grows_trans; [eapply flatten_grows|eapply IH];
      eassumption.
Qed.

(** The record of a page is the loop run from a record of the four
    reserved keys. *)
Lemma page_record_seed (page : PyVal) (dh : string)
    (dhs : option (gmap string string)) (rec : record) :
  page_to_dict page dh dhs = OK rec ->
  exists seed props,
    keys seed = reserved_keys /\
    for_each (flatten dh (default ∅ dhs)) props seed = OK rec.
Proof.
  intros Hrec. unfold _page_to_simple_dict in Hrec.
  repeat bind_inv Hrec. eexists. eexists. split; [|exact Hrec]. reflexivity.
Qed.

(** X11. Whatever the properties of a page and their names, its record
    begins with the four reserved keys, in the order [_notion_id],
    [_created_time], [_last_edited_time], [_notion_url]. *)
Theorem record_starts_with_reserved_keys (page : PyVal) (dh : string)
    (dhs : option (gmap string string)) (rec : record) :
  page_to_dict page dh dhs = OK rec ->
  exists extra, keys rec = (reserved_keys ++ extra)%list.
Proof.
  intros Hrec.
  destruct (page_record_seed page dh dhs rec Hrec) as (seed & props & Hk & Hrun).
  destruct (for_each_grows _ _ _ _ _ Hrun) as [[extra Hextra] _].
  exists extra. rewrite Hextra, Hk. reflexivity.
Qed.

(** X12. No key occurs twice in the record of a page, and every key is a
    name or a tuple that ends in "start" or "end": two properties that make
    the same key share one entry. *)
Theorem record_keys_are_distinct (page : PyVal) (dh : string)
    (dhs : option (gmap string string)) (rec : record) :
  page_to_dict page dh dhs = OK rec ->
  NoDup (keys rec) /\ Forall flat_key (keys rec).
Proof.
  intros Hrec.
  destruct (page_record_seed page dh dhs rec Hrec) as (seed & props & Hk & Hrun).
  destruct (for_each_grows _ _ _ _ _ Hrun) as (_ & Hnd & Hflat).
  rewrite Hk in Hnd, Hflat. split.
  - apply Hnd. apply (bool_decide_unpack _). vm_compute. exact I.
  - apply Hflat. unfold reserved_keys. repeat constructor.
Qed.

(** The record of a page whose properties begin with [before], from the
    record of the page that stops there. *)
Lemma page_record_split (page page0 : PyVal) (dh : string)
    (dhs : option (gmap string string))
    (before rest : list (string * PyVal)) (r0 : record) :
  Py.getitem page (PyStr "properties") = OK (PyDict (before ++ rest)) ->
  with_properties page page0 before ->
  page_to_dict page0 dh dhs = OK r0 ->
  page_to_dict page dh dhs = for_each (flatten dh (default ∅ dhs)) rest r0.
Proof.
  intros Hp [Hsame Hp0] Hr0. unfold _page_to_simple_dict in *.
  rewrite (Hsame "id"), (Hsame "created_time"), (Hsame "last_edited_time"),
    (Hsame "url") in Hr0 by discriminate.
  rewrite Hp0 in Hr0. rewrite Hp.
  destruct (Py.getitem page (PyStr "id")); cbn [mbind result_bind] in *;
    [|discriminate].
  destruct (Py.getitem page (PyStr "created_time"));
    cbn [mbind result_bind] in *; [|discriminate].
  destruct (pd_Timestamp parse_datetime a0); cbn [mbind result_bind] in *;
    [|discriminate].
  destruct (Py.getitem page (PyStr "last_edited_time"));
    cbn [mbind result_bind] in *; [|discriminate].
  destruct (pd_Timestamp parse_datetime a2); cbn [mbind result_bind] in *;
    [|discriminate].
  destruct (Py.getitem page (PyStr "url"));
    cbn [mbind result_bind Py.items] in *; [|discriminate].
  rewrite for_each_app, Hr0. reflexivity.
Qed.

(** X13. A property that is not tagged "date" (a formula or a rollup of
    dates included) is stored under its own name, whatever the policies:
    the loop body assigns its normalised value to that key, and the record
    of the page maps the name to the value unless a later property is
    stored under the same key. A property named like a reserved key takes
    the place of the reserved value. *)
Theorem plain_property_column (page : PyVal)
    (before after : list (string * PyVal)) (p tag : string)
    (value obj v : PyVal) (dh : string) (dhs : option (gmap string string)) :
  Py.getitem page (PyStr "properties") =
    OK (PyDict (before ++ (p, value) :: after)) ->
  tagged value tag obj ->
  tag <> "date" ->
  simplify value = OK v ->
  (forall r, flatten dh (default ∅ dhs) r (p, value) =
             OK (setitem r (Name p) v)) /\
  (forall rec, page_to_dict page dh dhs = OK rec ->
               untouched_by after (Name p) ->
               getkey rec (Name p) = Some v).
Proof.
  intros Hp [Ht _] Htag Hs.
  assert (Hstep : forall r, flatten dh (default ∅ dhs) r (p, value) =
                            OK (setitem r (Name p) v)).
  { intros r. unfold flatten_property. rewrite Hs. cbn [mbind result_bind].
    rewrite Ht. cbn [mbind result_bind Py.eq_str].
    rewrite (proj2 (String.eqb_neq tag "date") Htag). reflexivity. }
  split; [exact Hstep|].
  intros rec Hrec Hk.
  destruct (page_record_inv parse_datetime page dh dhs _ rec Hp Hrec)
    as [seed Hrun].
  rewrite for_each_app in Hrun. bind_inv Hrun.
  cbn [for_each] in Hrun. rewrite Hstep in Hrun.
  cbn [mbind result_bind] in Hrun.
  rewrite (for_each_other_keys parse_datetime dh _ after _ rec (Name p)
             Hrun Hk).
  apply getkey_setitem_eq.
Qed.

(** X14. An empty date, whose payload is [None], cannot be flattened under
    any of the three policies: its normalised value is [None], and taking
    its start raises [TypeError], for the whole page. Under an unrecognised
    policy the same property is skipped without an error. *)
Theorem empty_date_raises (page page0 : PyVal)
    (before after : list (string * PyVal)) (d : string) (value : PyVal)
    (dh : string) (dhs : option (gmap string string)) (h : string)
    (r0 : record) :
  Py.getitem page (PyStr "properties") =
    OK (PyDict (before ++ (d, value) :: after)) ->
  tagged value "date" PyNone ->
  policy_is dh dhs d h ->
  with_properties page page0 before ->
  page_to_dict page0 dh dhs = OK r0 ->
  (h ∈ recognised_handlers -> page_to_dict page dh dhs = Err TypeError) /\
  (h ∉ recognised_handlers ->
   page_to_dict page dh dhs =
   for_each (flatten dh (default ∅ dhs)) after r0).
Proof.
  intros Hp Htag Hpol Hwith Hr0.
  assert (Hs : simplify value = OK PyNone).
  { destruct Htag as [Ht Ho].
    exact (passthrough_payload parse_datetime value "date" PyNone Ht Ho
             (or_introl eq_refl)). }
  rewrite (page_record_split page page0 dh dhs before _ r0
             Hp Hwith Hr0).
  cbn [for_each].
  rewrite (flatten_date parse_datetime dh dhs r0 d h value PyNone
             (proj1 Htag) Hs Hpol).
  split.
  - intros Hin. apply list_elem_of_In in Hin. simpl in Hin.
    destruct Hin as [<-|[<-|[<-|[]]]]; reflexivity.
  - intros Hnot. destruct (unrecognised_eqb h Hnot) as (-> & -> & ->).
    reflexivity.
Qed.

Lemma for_each_ext {A B} (f g : A -> B -> result A) (xs : list B) (acc : A) :
  (forall a x, In x xs -> f a x = g a x) ->
  for_each f xs acc = for_each g xs acc.
Proof.
  revert acc. induction xs as [|x xs IH]; intros acc Hext; cbn [for_each];
    [reflexivity|].
  rewrite (Hext acc x) by (left; reflexivity).
  destruct (g acc x) as [acc'|]; cbn [mbind result_bind]; [|reflexivity].
  apply IH. intros a y Hy. apply Hext. right. exact Hy.
Qed.

(** X15. The policies only bear on properties tagged "date": a page that
    has none gives the same record, or raises the same exception, whatever
    [default_date_handler] and [date_handlers] are. *)
Theorem policies_only_matter_for_dates (page : PyVal)
    (props : list (string * PyVal)) (dh dh' : string)
    (dhs dhs' : option (gmap string string)) :
  Py.getitem page (PyStr "properties") = OK (PyDict props) ->
  (forall p v, In (p, v) props ->
               Py.getitem v (PyStr "type") <> OK (PyStr "date")) ->
  page_to_dict page dh dhs = page_to_dict page dh' dhs'.
Proof.
  intros Hp Hnodate. unfold _page_to_simple_dict. rewrite Hp.
  destruct (Py.getitem page (PyStr "id")); cbn [mbind result_bind];
    [|reflexivity].
  destruct (Py.getitem page (PyStr "created_time")); cbn [mbind result_bind];
    [|reflexivity].
  destruct (pd_Timestamp parse_datetime a0); cbn [mbind result_bind];
    [|reflexivity].
  destruct (Py.getitem page (PyStr "last_edited_time"));
    cbn [mbind result_bind]; [|reflexivity].
  destruct (pd_Timestamp parse_datetime a2); cbn [mbind result_bind];
    [|reflexivity].
  destruct (Py.getitem page (PyStr "url")); cbn [mbind result_bind Py.items];
    [|reflexivity].
  apply for_each_ext. intros r [p v] Hin. unfold flatten_property.
  destruct (simplify v); cbn [mbind result_bind]; [|reflexivity].
  destruct (Py.getitem v (PyStr "type")) as [t|] eqn:Ht;
    cbn [mbind result_bind]; [|reflexivity].
  destruct (Py.eq_str t "date") eqn:Hd; [|reflexivity].
  exfalso. apply (Hnodate p v Hin). rewrite Ht. f_equal.
  destruct t; try discriminate. simpl in Hd.
  apply String.eqb_eq in Hd. congruence.
Qed.

(** X16. One property that cannot be normalised loses the whole page: the
    call raises what the normaliser raises on the first such property, and
    no record is returned. *)
Theorem bad_property_fails_page (page page0 : PyVal)
    (before after : list (string * PyVal)) (p : string) (value : PyVal)
    (e : exn) (dh : string) (dhs : option (gmap string string))
    (r0 : record) :
  Py.getitem page (PyStr "properties") =
    OK (PyDict (before ++ (p, value) :: after)) ->
  with_properties page page0 before ->
  page_to_dict page0 dh dhs = OK r0 ->
  simplify value = Err e ->
  page_to_dict page dh dhs = Err e.
Proof.
  intros Hp Hwith Hr0 Hs.
  rewrite (page_record_split page page0 dh dhs before _ r0
             Hp Hwith Hr0).
  cbn [for_each]. unfold flatten_property. rewrite Hs. reflexivity.
Qed.

End MoreFlattenerFacts.

(** [page0] is the sample page [page] cut after its first properties. *)
Ltac same_page :=
  split; [|reflexivity];
  let k := fresh "k" in
  let Hk := fresh "Hk" in
  intros k Hk;
  cbv [More.undated_task More.named_task More.status_task More.formula_task
       Sample.page];
  cbn [Py.getitem Py.lookup];
  rewrite (proj2 (String.eqb_neq "properties" k)) by congruence;
  reflexivity.

Lemma record_reserved_keys_witness :
  exists rec extra,
    _page_to_simple_dict Sample.parse Sample.task "multiindex" None = OK rec /\
    keys rec = (reserved_keys ++ extra)%list.
Proof.
  assert (Hrec : exists rec,
            _page_to_simple_dict Sample.parse Sample.task "multiindex" None
            = OK rec) by (eexists; vm_compute; reflexivity).
  destruct Hrec as [rec Hrec].
  destruct (record_starts_with_reserved_keys Sample.parse Sample.task
              "multiindex" None rec Hrec) as [extra Hextra].
  exists rec, extra. split; [exact Hrec|exact Hextra].
Defined.

Lemma record_keys_distinct_witness :
  exists rec,
    _page_to_simple_dict Sample.parse Sample.clash "mangle" None = OK rec /\
    NoDup (keys rec).
Proof.
  assert (Hrec : exists rec,
            _page_to_simple_dict Sample.parse Sample.clash "mangle" None
            = OK rec) by (eexists; vm_compute; reflexivity).
  destruct Hrec as [rec Hrec].
  exists rec. split; [exact Hrec|].
  exact (proj1 (record_keys_are_distinct Sample.parse Sample.clash "mangle"
                  None rec Hrec)).
Defined.

(** A formula that computes a date is stored under its name, as the raw
    payload, even under "mangle". *)
Lemma plain_property_witness :
  exists rec,
    _page_to_simple_dict Sample.parse More.formula_task "mangle" None
      = OK rec /\
    getkey rec (Name "When") =
      Some (Sample.date_payload (PyStr "2021-03-01") PyNone).
Proof.
  assert (Hrec : exists rec,
            _page_to_simple_dict Sample.parse More.formula_task "mangle" None
            = OK rec) by (eexists; vm_compute; reflexivity).
  destruct Hrec as [rec Hrec].
  exists rec. split; [exact Hrec|].
  apply (proj2 (plain_property_column Sample.parse More.formula_task
                  [("Name", Sample.title)] [] "When" "formula"
                  Sample.formula_date Sample.formula_date_result
                  (Sample.date_payload (PyStr "2021-03-01") PyNone)
                  "mangle" None eq_refl (conj eq_refl eq_refl)
                  ltac:(discriminate) eq_refl) rec Hrec).
  intros p v [].
Defined.

Lemma empty_date_witness :
  _page_to_simple_dict Sample.parse More.undated_task "ignore_end" None =
  Err TypeError.
Proof.
  assert (Hr0 : exists r0,
            _page_to_simple_dict Sample.parse More.named_task "ignore_end"
              None = OK r0) by (eexists; vm_compute; reflexivity).
  destruct Hr0 as [r0 Hr0].
  apply (proj1 (empty_date_raises Sample.parse More.undated_task
                  More.named_task [("Name", Sample.title)]
                  [("Done", Sample.done)] "Due" More.empty_date
                  "ignore_end" None "ignore_end" r0 eq_refl
                  (conj eq_refl eq_refl) eq_refl ltac:(same_page) Hr0)).
  unfold recognised_handlers. in_list.
Defined.

Lemma policies_without_dates_witness :
  _page_to_simple_dict Sample.parse Sample.task_undated "mangle" None =
  _page_to_simple_dict Sample.parse Sample.task_undated "bogus"
    (Some {["Due" := "multiindex"]}).
Proof.
  apply (policies_only_matter_for_dates Sample.parse Sample.task_undated
           [("Name", Sample.title); ("Done", Sample.done)]).
  - reflexivity.
  - intros p v [[= <- <-]|[[= <- <-]|[]]]; discriminate.
Defined.

Lemma bad_property_witness :
  _page_to_simple_dict Sample.parse More.status_task "ignore_end" None =
  Err (ValueError "I don't understand type status").
Proof.
  assert (Hr0 : exists r0,
            _page_to_simple_dict Sample.parse More.named_task "ignore_end"
              None = OK r0) by (eexists; vm_compute; reflexivity).
  destruct Hr0 as [r0 Hr0].
  apply (bad_property_fails_page Sample.parse More.status_task
           More.named_task [("Name", Sample.title)] [] "Status" More.status
           _ "ignore_end" None r0 eq_refl ltac:(same_page) Hr0).
  reflexivity.
Defined.

(** ** The table of the pages *)

Lemma add_columns_grows (cols ks : list ColumnKey) :
  (exists extra, add_columns cols ks = (cols ++ extra)%list) /\
  (NoDup cols -> NoDup (add_columns cols ks)).
Proof.
  unfold add_columns. revert cols.
  induction ks as [|k ks IH]; intros cols; cbn [fold_left].
  - split; [|auto]. exists []. rewrite app_nil_r. reflexivity.
  - destruct (bool_decide_reflect (k ∈ cols)) as [Hin|Hnin]; [apply IH|].
    destruct (IH (cols ++ [k])%list) as [[extra Hextra] Hnd]. split.
    + exists (k :: extra). rewrite Hextra, <- app_assoc. reflexivity.
    + intros Hcols. apply Hnd. apply NoDup_app. split; [exact Hcols|].
      split; [|apply NoDup_singleton].
      intros x Hx [->|[]%elem_of_nil]%elem_of_cons. contradiction.
Qed.

Lemma add_columns_fresh (ks : list ColumnKey) :
  NoDup ks -> forall cols, (forall k, k ∈ ks -> k ∉ cols) ->
  add_columns cols ks = (cols ++ ks)%list.
Proof.
  unfold add_columns.
  induction 1 as [|k ks Hk Hnd IH]; intros cols Hfresh; cbn [fold_left].
  - rewrite app_nil_r. reflexivity.
  - rewrite bool_decide_false by (apply Hfresh; apply list_elem_of_here).
    rewrite IH.
    + rewrite <- app_assoc. reflexivity.
    + intros k' Hk' [Hin|Hin]%elem_of_app.
      * revert Hin. apply Hfresh. apply list_elem_of_further. exact Hk'.
      * apply list_elem_of_singleton in Hin. subst k'. contradiction.
Qed.

Lemma fold_add_columns_grows (records : list record) (cols : list ColumnKey) :
  (exists extra,
     fold_left (fun acc r => add_columns acc (keys r)) records cols =
     (cols ++ extra)%list) /\
  (NoDup cols ->
   NoDup (fold_left (fun acc r => add_columns acc (keys r)) records cols)).
Proof.
  revert cols. induction records as [|r records IH]; intros cols;
    cbn [fold_left].
  - split; [|auto]. exists []. rewrite app_nil_r. reflexivity.
  - destruct (add_columns_grows cols (keys r)) as [[x1 H1] N1].
    destruct (IH (add_columns cols (keys r))) as [[x2 H2] N2]. split.
    + exists (x1 ++ x2)%list. rewrite H2, H1, app_assoc. reflexivity.
    + auto.
Qed.

(** On the labels of the flattener, the promotion to tuples is one to
    one. *)
Lemma promote_inj (k1 k2 : ColumnKey) :
  flat_key k1 -> flat_key k2 -> promote k1 = promote k2 -> k1 = k2.
Proof.
  destruct k1 as [a|a la], k2 as [b|b lb]; cbn [promote is_tuple flat_key];
    intros H1 H2 [= ]; subst; try reflexivity;
    destruct H1 as [H1|H1] || destruct H2 as [H2|H2]; discriminate.
Qed.

Lemma NoDup_promote (cols : list ColumnKey) :
  Forall flat_key cols -> NoDup cols -> NoDup (map promote cols).
Proof.
  induction 1 as [|k cols Hk Hall IH]; cbn [map]; intros Hnd;
    [apply NoDup_nil_2|].
  apply NoDup_cons in Hnd as [Hnotin Hnd].
  apply NoDup_cons. split; [|auto].
  intros (k' & Heq & Hin)%list_elem_of_fmap.
  assert (flat_key k') as Hk'.
  { rewrite Forall_forall in Hall. apply Hall. exact Hin. }
  apply promote_inj in Heq; [|assumption..]. subst k'. contradiction.
Qed.

Lemma mapM_OK_Forall2 {A B} (f : A -> result B) (xs : list A) (ys : list B) :
  mapM f xs = OK ys -> Forall2 (fun x y => f x = OK y) xs ys.
Proof.
  revert ys. induction xs as [|x xs IH]; intros ys Hm; cbn [mapM] in Hm.
  - injection Hm as <-. constructor.
  - bind_inv Hm. bind_inv Hm. injection Hm as <-. constructor; auto.
Qed.

Section TableFacts.

Variable parse_datetime : string -> option timestamp.

Abbreviation page_to_dict := (_page_to_simple_dict parse_datetime).
Abbreviation to_dataframe := (pages_to_dataframe parse_datetime).

Lemma page_record_keys (page : PyVal) (dh : string)
    (dhs : option (gmap string string)) (rec : record) :
  page_to_dict page dh dhs = OK rec ->
  (exists extra, keys rec = (reserved_keys ++ extra)%list) /\
  NoDup (keys rec) /\ Forall flat_key (keys rec).
Proof.
  intros Hrec.
  destruct (page_record_seed parse_datetime page dh dhs rec Hrec)
    as (seed & props & Hseed & Hrun).
  destruct (for_each_grows parse_datetime _ _ _ _ _ Hrun)
    as (Hkeys & Hnd & Hflat).
  rewrite Hseed in Hkeys, Hnd, Hflat. split; [exact Hkeys|]. split.
  - apply Hnd. apply (bool_decide_unpack _). vm_compute. exact I.
  - apply Hflat. unfold reserved_keys. repeat constructor.
Qed.

(** X17. The table made of the pages is well formed: no column label
    occurs twice, also after the promotion to tuples, and every row has one
    cell per column. *)
Theorem table_is_well_formed (dh : string) (dhs : option (gmap string string))
    (results : PyVal) (df : DataFrame) :
  to_dataframe dh dhs results = OK df ->
  NoDup (columns df) /\
  Forall (fun row => List.length row = List.length (columns df)) (data df).
Proof.
  unfold pages_to_dataframe. intros Hdf. bind_inv Hdf. bind_inv Hdf.
  injection Hdf as <-. rename a0 into records.
  assert (Hflat : Forall flat_key (columns (pd_DataFrame records))).
  { apply Forall_forall. intros k (r & Hr & Hk)%columns_spec.
    apply mapM_OK_Forall2 in E0.
    assert (exists page, page_to_dict page dh dhs = OK r) as [page Hpage].
    { clear -E0 Hr. induction E0 as [|x y xs ys Hxy _ IH].
      - apply elem_of_nil in Hr. contradiction.
      - apply elem_of_cons in Hr as [->|Hr]; eauto. }
    destruct (page_record_keys page dh dhs r Hpage) as (_ & _ & Hall).
    rewrite Forall_forall in Hall. apply Hall. exact Hk. }
  assert (Hnd : NoDup (columns (pd_DataFrame records))).
  { unfold pd_DataFrame. cbn [columns].
    apply (fold_add_columns_grows records []). apply NoDup_nil_2. }
  assert (Hrows : Forall (fun row => List.length row =
                            List.length (columns (pd_DataFrame records)))
                         (data (pd_DataFrame records))).
  { unfold pd_DataFrame. cbn [columns data]. apply Forall_forall.
    intros row (r & -> & _)%list_elem_of_fmap. apply List.length_map. }
  unfold hierarchical_columns.
  destruct (existsb is_tuple (columns (pd_DataFrame records)));
    cbn [columns data].
  - split; [apply NoDup_promote; assumption|].
    rewrite List.length_map. exact Hrows.
  - split; assumption.
Qed.

(** X18. When there is a page at all, the table begins with the four
    reserved columns, in their order: as plain names, or as the tuples
    [(name, "")] when some date is flattened under "multiindex". *)
Theorem table_starts_with_reserved_columns (dh : string)
    (dhs : option (gmap string string)) (page : PyVal) (pages : list PyVal)
    (df : DataFrame) :
  to_dataframe dh dhs (PyList (page :: pages)) = OK df ->
  exists rest,
    columns df = (reserved_keys ++ rest)%list \/
    columns df = (map promote reserved_keys ++ rest)%list.
Proof.
  unfold pages_to_dataframe. cbn [Py.iter mbind result_bind].
  intros Hdf. bind_inv Hdf. injection Hdf as <-.
  apply mapM_OK_Forall2 in E.
  inversion E as [|page' r pages' a1 Hr _]; subst. clear E.
  destruct (page_record_keys page dh dhs r Hr) as ([extra Hkeys] & Hnd & _).
  assert (Hcols : exists rest, columns (pd_DataFrame (r :: a1)) =
                               (reserved_keys ++ rest)%list).
  { unfold pd_DataFrame. cbn [columns fold_left].
    rewrite (add_columns_fresh (keys r));
      [|exact Hnd|intros k _; apply not_elem_of_nil].
    destruct (fold_add_columns_grows a1 ([] ++ keys r)%list) as [[x Hx] _].
    rewrite Hx. cbn [app]. rewrite Hkeys, <- app_assoc. eauto. }
  destruct Hcols as [rest Hcols].
  unfold hierarchical_columns.
  destruct (existsb is_tuple (columns (pd_DataFrame (r :: a1))));
    cbn [columns].
  - exists (map promote rest). right. rewrite Hcols, List.map_app.
    reflexivity.
  - exists rest. left. exact Hcols.
Qed.

End TableFacts.

Lemma table_well_formed_witness :
  exists df,
    pages_to_dataframe Sample.parse "multiindex" None
      (PyList [Sample.task; Sample.task2]) = OK df /\
    NoDup (columns df).
Proof.
  assert (Hdf : exists df,
            pages_to_dataframe Sample.parse "multiindex" None
              (PyList [Sample.task; Sample.task2]) = OK df)
    by (eexists; vm_compute; reflexivity).
  destruct Hdf as [df Hdf]. exists df. split; [exact Hdf|].
  exact (proj1 (table_is_well_formed Sample.parse "multiindex" None _ df Hdf)).
Defined.

Lemma table_reserved_columns_witness :
  exists df rest,
    pages_to_dataframe Sample.parse "mangle" None
      (PyList [Sample.task; Sample.task2]) = OK df /\
    (columns df = (reserved_keys ++ rest)%list \/
     columns df = (map promote reserved_keys ++ rest)%list).
Proof.
  assert (Hdf : exists df,
            pages_to_dataframe Sample.parse "mangle" None
              (PyList [Sample.task; Sample.task2]) = OK df)
    by (eexists; vm_compute; reflexivity).
  destruct Hdf as [df Hdf].
  destruct (table_starts_with_reserved_columns Sample.parse "mangle" None
              Sample.task [Sample.task2] df Hdf) as [rest Hrest].
  exists df, rest. split; [exact Hdf|exact Hrest].
Defined.

(** ** Users *)

Lemma user_record_shape (user : PyVal) (rec : record) :
  _user_to_simple_dict user = OK rec ->
  keys rec = (user_keys ++ if is_person user then [Name "email"] else [])%list /\
  (is_person user = true ->
   exists person email,
     Py.getitem user (PyStr "person") = OK person /\
     Py.getitem person (PyStr "email") = OK email /\
     getkey rec (Name "email") = Some email) /\
  (is_person user = false -> getkey rec (Name "email") = None).
Proof.
  unfold _user_to_simple_dict, is_person. intros Hrec.
  bind_inv Hrec. bind_inv Hrec. bind_inv Hrec. bind_inv Hrec.
  destruct (Py.eq_str a0 "person").
  - bind_inv Hrec. bind_inv Hrec. injection Hrec as <-.
    split; [reflexivity|]. split; [|discriminate].
    intros _. exists a3, a4. auto.
  - injection Hrec as <-. split; [reflexivity|]. split; [discriminate|].
    reflexivity.
Qed.

(** X19. The record of a user has the keys [notion_id], [type], [name],
    [avatar_url], in this order, and after them [email], holding
    [user["person"]["email"]], exactly when the user's type is "person":
    a bot has no [email] key at all. *)
Theorem user_record_fields (user : PyVal) (rec : record) :
  _user_to_simple_dict user = OK rec ->
  (is_person user = true ->
   keys rec = (user_keys ++ [Name "email"])%list /\
   exists person email,
     Py.getitem user (PyStr "person") = OK person /\
     Py.getitem person (PyStr "email") = OK email /\
     getkey rec (Name "email") = Some email) /\
  (is_person user = false ->
   keys rec = user_keys /\ getkey rec (Name "email") = None).
Proof.
  intros Hrec. destruct (user_record_shape user rec Hrec) as (Hk & Hp & Hb).
  split; intros Hperson; rewrite Hperson in Hk.
  - split; [exact Hk|auto].
  - rewrite app_nil_r in Hk. split; [exact Hk|auto].
Qed.

(** X20. A user that lacks one of the fields [id], [type], [name],
    [avatar_url] makes the call raise [KeyError], and so does a person
    without the "person" object; no field is optional. *)
Theorem user_missing_field_raises (entries : list (string * PyVal)) :
  (forall k, In k ["id"; "type"; "name"; "avatar_url"] ->
             Py.lookup k entries = None ->
             _user_to_simple_dict (PyDict entries) = Err KeyError) /\
  (Py.lookup "type" entries = Some (PyStr "person") ->
   Py.lookup "person" entries = None ->
   _user_to_simple_dict (PyDict entries) = Err KeyError).
Proof.
  split.
  - intros k Hin Hnone. unfold _user_to_simple_dict. cbn [Py.getitem].
    destruct (Py.lookup "id" entries) eqn:Hid; cbn [mbind result_bind];
      [|reflexivity].
    destruct (Py.lookup "type" entries) eqn:Hty; cbn [mbind result_bind];
      [|reflexivity].
    destruct (Py.lookup "name" entries) eqn:Hna; cbn [mbind result_bind];
      [|reflexivity].
    destruct (Py.lookup "avatar_url" entries) eqn:Hav;
      cbn [mbind result_bind]; [|reflexivity].
    exfalso. simpl in Hin.
    destruct Hin as [<-|[<-|[<-|[<-|[]]]]]; congruence.
  - intros Hty Hnone. unfold _user_to_simple_dict. cbn [Py.getitem].
    rewrite Hty, Hnone.
    destruct (Py.lookup "id" entries); cbn [mbind result_bind];
      [|reflexivity].
    destruct (Py.lookup "name" entries); cbn [mbind result_bind];
      [|reflexivity].
    destruct (Py.lookup "avatar_url" entries); reflexivity.
Qed.

Lemma users_columns_fold (users : list PyVal) (records : list record) :
  Forall2 (fun u r => _user_to_simple_dict u = OK r) users records ->
  forall b : bool,
    fold_left (fun acc r => add_columns acc (keys r)) records
      (user_keys ++ if b then [Name "email"] else [])%list =
    (user_keys ++
     if b || existsb is_person users then [Name "email"] else [])%list.
Proof.
  induction 1 as [|u r users records Hr _ IH]; intros b;
    cbn [fold_left existsb].
  - rewrite orb_false_r. reflexivity.
  - destruct (user_record_shape u r Hr) as [Hk _]. rewrite Hk.
    replace (add_columns (user_keys ++ (if b then [Name "email"] else []))
               (user_keys ++ (if is_person u then [Name "email"] else [])))
      with (user_keys ++ if b || is_person u then [Name "email"] else [])%list
      by (destruct b, (is_person u); reflexivity).
    rewrite IH, orb_assoc. reflexivity.
Qed.

(** X21. The table of the users has the four columns of every user and,
    after them, the column [email] exactly when at least one user is a
    person; an empty list of users gives a table without columns. *)
Theorem users_table_columns (users : list PyVal) (df : DataFrame) :
  users_table (PyList users) = OK df ->
  (users = [] -> columns df = []) /\
  (users <> [] ->
   columns df =
   (user_keys ++
    if existsb is_person users then [Name "email"] else [])%list).
Proof.
  unfold users_table. cbn [Py.iter mbind result_bind].
  intros Hdf. bind_inv Hdf. injection Hdf as <-.
  apply mapM_OK_Forall2 in E. split.
  - intros ->. inversion E; subst. reflexivity.
  - intros Hne. inversion E as [|u r users' records Hr Hrest]; subst;
      [congruence|].
    unfold pd_DataFrame. cbn [columns fold_left existsb].
    destruct (user_record_shape u r Hr) as [Hk _]. rewrite Hk.
    replace (add_columns []
               (user_keys ++ (if is_person u then [Name "email"] else [])))
      with (user_keys ++ if is_person u then [Name "email"] else [])%list
      by (destruct (is_person u); reflexivity).
    apply (users_columns_fold users' records Hrest).
Qed.

Lemma user_record_witness :
  exists rec,
    _user_to_simple_dict Sample.bot = OK rec /\
    keys rec = user_keys /\ getkey rec (Name "email") = None.
Proof.
  assert (Hrec : exists rec, _user_to_simple_dict Sample.bot = OK rec)
    by (eexists; vm_compute; reflexivity).
  destruct Hrec as [rec Hrec]. exists rec. split; [exact Hrec|].
  exact (proj2 (user_record_fields Sample.bot rec Hrec) eq_refl).
Defined.

Lemma user_missing_field_witness :
  _user_to_simple_dict
    (PyDict [("object", PyStr "user"); ("id", PyStr "u3");
             ("type", PyStr "bot"); ("name", PyStr "Sync")]) = Err KeyError.
Proof.
  apply (proj1 (user_missing_field_raises
                  [("object", PyStr "user"); ("id", PyStr "u3");
                   ("type", PyStr "bot"); ("name", PyStr "Sync")])
               "avatar_url").
  - simpl. tauto.
  - reflexivity.
Defined.

Lemma users_table_witness :
  exists df,
    users_table (PyList [Sample.bot; Sample.person]) = OK df /\
    columns df = [Name "notion_id"; Name "type"; Name "name";
                  Name "avatar_url"; Name "email"].
Proof.
  assert (Hdf : exists df,
            users_table (PyList [Sample.bot; Sample.person]) = OK df)
    by (eexists; vm_compute; reflexivity).
  destruct Hdf as [df Hdf]. exists df. split; [exact Hdf|].
  apply (proj2 (users_table_columns [Sample.bot; Sample.person] df Hdf)).
  discriminate.
Defined.

(** ** The entry points when the service misbehaves *)

Section MorePagingFacts.

Context {C : Type}.
Variable call : C -> option PyVal -> result PyVal * C.
Variable ev : option PyVal -> event.
Hypothesis ev_is_fetch : forall cursor, is_fetch (ev cursor) = true.

Lemma bind_raise {A B} (m : Eff C A) (f : A -> Eff C B) (w w' : World C)
    (e : exn) :
  m w = Some (Err e, w') -> (m ≫= f) w = Some (Err e, w').
Proof. intros Hm. unfold mbind, eff_bind. rewrite Hm. reflexivity. Qed.

Lemma bind_diverge {A B} (m : Eff C A) (f : A -> Eff C B) (w : World C) :
  m w = None -> (m ≫= f) w = None.
Proof. intros Hm. unfold mbind, eff_bind. rewrite Hm. reflexivity. Qed.

Lemma api_call_raise (c c' : C) (cursor : option PyVal) (e : exn)
    (tr : list event) :
  call c cursor = (Err e, c') ->
  api_call call ev cursor {| client := c; trace := tr |} =
  Some (Err e, {| client := c'; trace := tr ++ [ev cursor] |}).
Proof. intros Hc. unfold api_call. simpl. rewrite Hc. reflexivity. Qed.

(** A turn of the loop in which the call raises. *)
Lemma fetch_rest_turn_raise (fuel : nat) (response cursor results : PyVal)
    (c c' : C) (e : exn) (tr : list event) :
  Py.getitem response (PyStr "has_more") = OK (PyBool true) ->
  Py.getitem response (PyStr "next_cursor") = OK cursor ->
  call c (Some cursor) = (Err e, c') ->
  fetch_rest (api_call call ev) (S fuel) response results
    {| client := c; trace := tr |} =
  Some (Err e, {| client := c'; trace := tr ++ [Sleep; ev (Some cursor)] |}).
Proof.
  intros Hm Hn Hcall. cbn [fetch_rest]. rewrite Hm, Hn.
  unfold mbind at 1, eff_bind at 1, lift at 1. cbn [Py.truthy].
  unfold mbind at 1, eff_bind at 1, sleep at 1. cbn [client trace].
  unfold mbind at 1, eff_bind at 1, lift at 1.
  unfold mbind at 1, eff_bind at 1.
  rewrite (api_call_raise _ _ _ _ _ Hcall).
  rewrite <- app_assoc. reflexivity.
Qed.

Lemma fetch_rest_fails (n : nat) (c c' : C) (cursor : PyVal) (e : exn) :
  fails_after call c (Some cursor) n e c' ->
  forall (fuel : nat) (response : PyVal) (acc : list PyVal)
         (tr : list event),
    (n < fuel)%nat ->
    Py.getitem response (PyStr "has_more") = OK (PyBool true) ->
    Py.getitem response (PyStr "next_cursor") = OK cursor ->
    exists tr',
      fetch_rest (api_call call ev) fuel response (PyList acc)
        {| client := c; trace := tr |} =
      Some (Err e, {| client := c'; trace := tr ++ tr' |}) /\
      fetches tr' = S n.
Proof.
  remember (Some cursor) as start eqn:Hstart.
  intros Hfails. revert cursor Hstart.
  induction Hfails as [c start e c' Hcall
                      |c start response' c' page next n e c'' Hcall Hres
                         Hmore Hnext Hfails IH];
    intros cursor -> fuel response acc tr Hfuel Hm Hn;
    (destruct fuel as [|fuel]; [lia|]).
  - exists [Sleep; ev (Some cursor)]. split.
    + apply fetch_rest_turn_raise; assumption.
    + unfold fetches. simpl. rewrite ev_is_fetch. reflexivity.
  - rewrite (fetch_rest_turn call ev fuel response response' cursor acc page
               c c' tr Hm Hn Hcall Hres).
    destruct (IH next eq_refl fuel response' (acc ++ page)%list
                 (tr ++ [Sleep; ev (Some cursor)])%list ltac:(lia)
                 Hmore Hnext) as (tr' & Hrun & Hf).
    exists ([Sleep; ev (Some cursor)] ++ tr')%list. split.
    + rewrite Hrun, <- app_assoc. reflexivity.
    + rewrite fetches_app, Hf. unfold fetches. simpl.
      rewrite ev_is_fetch. reflexivity.
Qed.

(** The collector on an endpoint that raises after [n] pages: it raises
    the same, having made [n + 1] calls. *)
Lemma fetch_all_fails (n : nat) (c c' : C) (e : exn) (fuel : nat)
    (tr : list event) :
  fails_after call c None n e c' ->
  (n <= fuel)%nat ->
  exists tr',
    fetch_all (api_call call ev) fuel {| client := c; trace := tr |} =
    Some (Err e, {| client := c'; trace := tr ++ tr' |}) /\
    fetches tr' = S n.
Proof.
  intros Hfails Hfuel. unfold fetch_all.
  inversion Hfails as [c0 start e0 c1 Hcall
                      |c0 start response c1 page next m e0 c2 Hcall Hres
                         Hmore Hnext Hrest]; subst.
  - exists [ev None]. split.
    + apply bind_raise. apply api_call_raise. exact Hcall.
    + unfold fetches. simpl. rewrite ev_is_fetch. reflexivity.
  - destruct (fetch_rest_fails m c1 c' next e Hrest fuel response page
                (tr ++ [ev None])%list ltac:(lia) Hmore Hnext)
      as (tr' & Hrun & Hf).
    exists ([ev None] ++ tr')%list. split.
    + rewrite (bind_step _ _ _ _ _ (api_call_step call ev _ _ _ _ tr Hcall)).
      rewrite Hres. unfold mbind at 1, eff_bind at 1, lift at 1.
      rewrite Hrun, <- app_assoc. reflexivity.
    + rewrite fetches_app, Hf. unfold fetches. simpl.
      rewrite ev_is_fetch. reflexivity.
Qed.

(** The loop on an endpoint that always announces more: no fuel is
    enough. *)
Lemma fetch_rest_endless (inv : C -> Prop) :
  always_more call inv ->
  forall (fuel : nat) (c : C) (response cursor : PyVal) (acc : list PyVal)
         (tr : list event),
    inv c ->
    Py.getitem response (PyStr "has_more") = OK (PyBool true) ->
    Py.getitem response (PyStr "next_cursor") = OK cursor ->
    fetch_rest (api_call call ev) fuel response (PyList acc)
      {| client := c; trace := tr |} = None.
Proof.
  intros Hmore. induction fuel as [|fuel IH];
    intros c response cursor acc tr Hinv Hm Hn.
  - cbn [fetch_rest]. rewrite Hm. reflexivity.
  - destruct (Hmore c (Some cursor) Hinv)
      as (response' & c' & page & next & Hcall & Hres & Hm' & Hn' & Hinv').
    rewrite (fetch_rest_turn call ev fuel response response' cursor acc page
               c c' tr Hm Hn Hcall Hres).
    apply (IH c' response' next); assumption.
Qed.

Lemma fetch_all_endless (inv : C -> Prop) (fuel : nat) (c : C)
    (tr : list event) :
  always_more call inv -> inv c ->
  fetch_all (api_call call ev) fuel {| client := c; trace := tr |} = None.
Proof.
  intros Hmore Hinv. unfold fetch_all.
  destruct (Hmore c None Hinv)
    as (response & c' & page & next & Hcall & Hres & Hm & Hn & Hinv').
  rewrite (bind_step _ _ _ _ _ (api_call_step call ev _ _ _ _ tr Hcall)).
  rewrite Hres. unfold mbind at 1, eff_bind at 1, lift at 1.
  apply (fetch_rest_endless inv Hmore fuel c' response next); assumption.
Qed.

End MorePagingFacts.

Section MoreEntryPointFacts.

Context {C : Type} `{NotionClient C}.
Variable parse_datetime : string -> option timestamp.

(** X22. An exception of the service is not caught: when a call raises,
    at once or after [n] pages that announced more, both entry points raise
    the same exception after these [n + 1] calls; the pages fetched so far
    are dropped and no table is returned. *)
Theorem upstream_error_propagates (c c' : C) (n : nat) (e : exn)
    (fuel : nat) (tr : list event) :
  (n <= fuel)%nat ->
  (forall database_id dh dhs,
     fails_after (fun c => databases_query c database_id) c None n e c' ->
     exists tr',
       database_to_dataframe parse_datetime fuel database_id dh dhs
         {| client := c; trace := tr |} =
       Some (Err e, {| client := c'; trace := tr ++ tr' |}) /\
       fetches tr' = S n) /\
  (fails_after users_list c None n e c' ->
   exists tr',
     users_to_dataframe fuel {| client := c; trace := tr |} =
     Some (Err e, {| client := c'; trace := tr ++ tr' |}) /\
     fetches tr' = S n).
Proof.
  intros Hfuel. split.
  - intros database_id dh dhs Hfails.
    destruct (fetch_all_fails (fun c => databases_query c database_id)
                (DatabasesQuery database_id) (fun _ => eq_refl)
                n c c' e fuel tr Hfails Hfuel) as (tr' & Hrun & Hf).
    exists tr'. split; [|exact Hf].
    unfold database_to_dataframe. apply bind_raise. exact Hrun.
  - intros Hfails.
    destruct (fetch_all_fails users_list UsersList (fun _ => eq_refl)
                n c c' e fuel tr Hfails Hfuel) as (tr' & Hrun & Hf).
    exists tr'. split; [|exact Hf].
    unfold users_to_dataframe. apply bind_raise. exact Hrun.
Qed.

(** X23. The loops have no bound of their own: on a service whose every
    response announces more, neither entry point returns or raises,
    however long it runs. *)
Theorem endless_source_never_returns (inv : C -> Prop) (c : C)
    (tr : list event) :
  inv c ->
  (forall database_id dh dhs fuel,
     always_more (fun c => databases_query c database_id) inv ->
     database_to_dataframe parse_datetime fuel database_id dh dhs
       {| client := c; trace := tr |} = None) /\
  (forall fuel,
     always_more users_list inv ->
     users_to_dataframe fuel {| client := c; trace := tr |} = None).
Proof.
  intros Hinv. split.
  - intros database_id dh dhs fuel Hmore.
    unfold database_to_dataframe. apply bind_diverge.
    exact (fetch_all_endless (fun c => databases_query c database_id)
             (DatabasesQuery database_id) inv fuel c tr Hmore Hinv).
  - intros fuel Hmore.
    unfold users_to_dataframe. apply bind_diverge.
    exact (fetch_all_endless users_list UsersList inv fuel c tr Hmore Hinv).
Qed.

(** X24. A database without pages, or a workspace without users, gives
    the empty table: no row and no column, not even the reserved ones. *)
Theorem no_items_give_empty_table (c c' : C) (pages : list (list PyVal))
    (fuel : nat) (tr : list event) :
  concat pages = [] ->
  (List.length pages <= S fuel)%nat ->
  (forall database_id dh dhs,
     serves (fun c => databases_query c database_id) c None pages c' ->
     exists tr',
       database_to_dataframe parse_datetime fuel database_id dh dhs
         {| client := c; trace := tr |} =
       Some (OK {| columns := []; data := [] |},
             {| client := c'; trace := tr ++ tr' |})) /\
  (serves users_list c None pages c' ->
   exists tr',
     users_to_dataframe fuel {| client := c; trace := tr |} =
     Some (OK {| columns := []; data := [] |},
           {| client := c'; trace := tr ++ tr' |})).
Proof.
  intros Hempty Hfuel. split.
  - intros database_id dh dhs Hserves.
    destruct (fetch_all_serves (fun c => databases_query c database_id)
                (DatabasesQuery database_id) (fun _ => eq_refl)
                pages c c' fuel tr Hserves Hfuel) as (tr' & Hrun & _).
    exists tr'. unfold database_to_dataframe.
    rewrite (bind_step _ _ _ _ _ Hrun), Hempty. reflexivity.
  - intros Hserves.
    destruct (fetch_all_serves users_list UsersList (fun _ => eq_refl)
                pages c c' fuel tr Hserves Hfuel) as (tr' & Hrun & _).
    exists tr'. unfold users_to_dataframe.
    rewrite (bind_step _ _ _ _ _ Hrun), Hempty. reflexivity.
Qed.

(** X25. The pages are flattened only when all of them are fetched, and
    one page that cannot be flattened loses the table: after the calls for
    all the pages, the call raises what the first such page raises. *)
Theorem bad_page_fails_after_fetching (c c' : C)
    (pages : list (list PyVal)) (l1 l2 : list PyVal) (page : PyVal)
    (e : exn) (database_id dh : string) (dhs : option (gmap string string))
    (fuel : nat) (tr : list event) :
  serves (fun c => databases_query c database_id) c None pages c' ->
  (List.length pages <= S fuel)%nat ->
  concat pages = (l1 ++ page :: l2)%list ->
  (forall q, In q l1 ->
             exists r, _page_to_simple_dict parse_datetime q dh dhs = OK r) ->
  _page_to_simple_dict parse_datetime page dh dhs = Err e ->
  exists tr',
    database_to_dataframe parse_datetime fuel database_id dh dhs
      {| client := c; trace := tr |} =
    Some (Err e, {| client := c'; trace := tr ++ tr' |}) /\
    fetches tr' = List.length pages.
Proof.
  intros Hserves Hfuel Hsplit Hok Hbad.
  destruct (fetch_all_serves (fun c => databases_query c database_id)
              (DatabasesQuery database_id) (fun _ => eq_refl)
              pages c c' fuel tr Hserves Hfuel) as (tr' & Hrun & Hf & _).
  exists tr'. split; [|exact Hf].
  unfold database_to_dataframe.
  rewrite (bind_step _ _ _ _ _ Hrun), Hsplit.
  unfold lift, pages_to_dataframe. cbn [Py.iter mbind result_bind].
  rewrite (mapM_first_error _ l1 l2 page e Hok Hbad). reflexivity.
Qed.

End MoreEntryPointFacts.

Lemma upstream_error_witness :
  exists tr',
    database_to_dataframe Sample.parse 1 "db" "ignore_end" None
      (Sample.world More.broken) =
    Some (Err APIResponseError, {| client := []; trace := tr' |}) /\
    fetches tr' = 2%nat.
Proof.
  assert (Hfails : fails_after (fun c => databases_query c "db") More.broken
                     None 1 APIResponseError []).
  { eapply fails_later; [reflexivity..|]. apply fails_now. reflexivity. }
  destruct (proj1 (upstream_error_propagates Sample.parse More.broken [] 1
                     APIResponseError 1 [] (le_n 1))
                  "db" "ignore_end" None Hfails) as (tr' & Hrun & Hf).
  exists tr'. split; [exact Hrun|exact Hf].
Defined.

Lemma endless_source_witness :
  database_to_dataframe Sample.parse 1000 "db" "ignore_end" None
    (Sample.world tt) = None.
Proof.
  apply (proj1 (endless_source_never_returns Sample.parse (fun _ => True) tt
                  [] I) "db" "ignore_end" None 1000%nat).
  intros [] cursor _. do 4 eexists.
  split; [reflexivity|]. repeat split; reflexivity.
Defined.

Lemma no_items_witness :
  exists tr',
    database_to_dataframe Sample.parse 0 "db" "ignore_end" None
      (Sample.world More.no_pages) =
    Some (OK {| columns := []; data := [] |},
          {| client := []; trace := tr' |}).
Proof.
  assert (Hserves : serves (fun c => databases_query c "db") More.no_pages
                      None [[]] []).
  { eapply serves_last; reflexivity. }
  destruct (proj1 (no_items_give_empty_table Sample.parse More.no_pages []
                     [[]] 0 [] eq_refl (le_n 1))
                  "db" "ignore_end" None Hserves) as (tr' & Hrun).
  exists tr'. exact Hrun.
Defined.

Lemma bad_page_witness :
  exists tr',
    database_to_dataframe Sample.parse 1 "db" "ignore_end" None
      (Sample.world More.bad_pages) =
    Some (Err (ValueError "I don't understand type status"),
          {| client := []; trace := tr' |}) /\
    fetches tr' = 2%nat.
Proof.
  assert (Hserves : serves (fun c => databases_query c "db") More.bad_pages
                      None [[Sample.task]; [More.status_task; Sample.task2]]
                      []).
  { eapply serves_more; [reflexivity..|]. eapply serves_last; reflexivity. }
  destruct (bad_page_fails_after_fetching Sample.parse More.bad_pages []
              [[Sample.task]; [More.status_task; Sample.task2]]
              [Sample.task] [Sample.task2] More.status_task
              (ValueError "I don't understand type status")
              "db" "ignore_end" None 1 [] Hserves (le_n 2) eq_refl)
    as (tr' & Hrun & Hf).
  - intros q [<-|[]]. eexists. vm_compute. reflexivity.
  - vm_compute. reflexivity.
  - exists tr'. split; [exact Hrun|exact Hf].
Defined.
